(** * feishu_doc.py: Markdown to Feishu blocks, batched upload, bot push

  A shallow embedding of [FeishuDocManager] (src/feishu_doc.py) and the
  properties of its parser, its batch writer and its top-level
  [create_daily_doc] pipeline.

  Python [str] values are sequences of Unicode code points; they are
  modelled as [list N].  Remote collaborators (the lark SDK client, the
  bot webhook) are an explicit oracle record, and the methods that talk
  to them live in a small state-and-exception monad whose state holds the
  log and the trace of remote calls. *)

From Stdlib Require Import String Ascii.
From Stdlib Require Import List NArith ZArith Arith Lia Bool.
Import ListNotations.

(* ================================================================== *)
(** ** Python strings *)

Module PyStr.

Definition char := N.
Definition str := list char.

(** An ASCII literal of the source, as code points. *)
Definition lit (s : string) : str :=
  map N_of_ascii (list_ascii_of_string s).
Arguments lit s%_string.

(** ['\n'] *)
Definition nl : char := 10%N.

(** [str.isspace] on one code point: the characters [str.strip()]
    removes (CPython's [_PyUnicode_IsWhitespace]). *)
Definition isspace (c : char) : bool :=
  ((9 <=? c) && (c <=? 13)
   || (28 <=? c) && (c <=? 32)
   || (c =? 133) || (c =? 160) || (c =? 5760)
   || (8192 <=? c) && (c <=? 8202)
   || (c =? 8232) || (c =? 8233) || (c =? 8239)
   || (c =? 8287) || (c =? 12288))%N.

(** [s.lstrip()] *)
Fixpoint lstrip (s : str) : str :=
  match s with
  | [] => []
  | c :: s' => if isspace c then lstrip s' else s
  end.

(** [s.rstrip()] *)
Definition rstrip (s : str) : str := rev (lstrip (rev s)).

(** [s.strip()] *)
Definition strip (s : str) : str := rstrip (lstrip s).

(** [s.startswith(p)] *)
Fixpoint startswith (s p : str) : bool :=
  match p, s with
  | [], _ => true
  | _ :: _, [] => false
  | a :: p', b :: s' => (a =? b)%N && startswith s' p'
  end.

(** [s.split(sep)] for a one-character separator: never the empty list,
    [''.split(sep) == ['']]. *)
Fixpoint split (sep : char) (s : str) : list str :=
  match s with
  | [] => [[]]
  | c :: s' =>
      if (c =? sep)%N then [] :: split sep s'
      else match split sep s' with
           | l :: ls => (c :: l) :: ls
           | [] => [[c]]
           end
  end.

(** [sep.join(parts)] for a one-character separator. *)
Fixpoint join (sep : char) (parts : list str) : str :=
  match parts with
  | [] => []
  | [p] => p
  | p :: ps => p ++ sep :: join sep ps
  end.

(** Python truthiness of a string: [bool(s)]. *)
Definition nonempty (s : str) : bool :=
  match s with [] => false | _ :: _ => true end.

End PyStr.
Import PyStr.

(* ================================================================== *)
(** ** The SDK's block payloads (lark_oapi.api.docx.v1)

  Builders only fill fields; a field never set stays [None]. *)

Module Sdk.

Inductive TextElementStyle := mkTextElementStyle.
Inductive TextStyle := mkTextStyle.
Inductive Divider := mkDivider.

Record TextRun := mkTextRun {
  content : option str;
  text_element_style : option TextElementStyle
}.

Record TextElement := mkTextElement {
  text_run : option TextRun
}.

Record Text := mkText {
  elements : option (list TextElement);
  style : option TextStyle
}.

Record Block := mkBlock {
  block_type : option Z;
  text : option Text;
  heading1 : option Text;
  heading2 : option Text;
  heading3 : option Text;
  divider : option Divider
}.

(** [Block.builder()] before any setter is called. *)
Definition Block_builder : Block :=
  mkBlock None None None None None None.

Definition set_block_type (n : Z) (b : Block) : Block :=
  mkBlock (Some n) (text b) (heading1 b) (heading2 b) (heading3 b) (divider b).
Definition set_text (t : Text) (b : Block) : Block :=
  mkBlock (block_type b) (Some t) (heading1 b) (heading2 b) (heading3 b) (divider b).
Definition set_heading1 (t : Text) (b : Block) : Block :=
  mkBlock (block_type b) (text b) (Some t) (heading2 b) (heading3 b) (divider b).
Definition set_heading2 (t : Text) (b : Block) : Block :=
  mkBlock (block_type b) (text b) (heading1 b) (Some t) (heading3 b) (divider b).
Definition set_heading3 (t : Text) (b : Block) : Block :=
  mkBlock (block_type b) (text b) (heading1 b) (heading2 b) (Some t) (divider b).
Definition set_divider (d : Divider) (b : Block) : Block :=
  mkBlock (block_type b) (text b) (heading1 b) (heading2 b) (heading3 b) (Some d).

End Sdk.
Import Sdk.

(* ================================================================== *)
(** ** [_markdown_to_sdk_blocks] *)

Module Parser.

Local Open Scope Z_scope.

(** The [if/elif] chain of the loop body: either the divider branch
    (which appends and [continue]s) or a [(block_type, text_content)]
    pair for the text branch below it. *)
Inductive classified :=
| TextLine (block_type : Z) (text_content : str)
| DividerLine.

Definition classify (line : str) : classified :=
  if startswith line (lit "# ") then TextLine 3 (skipn 2 line)
  else if startswith line (lit "## ") then TextLine 4 (skipn 3 line)
  else if startswith line (lit "### ") then TextLine 5 (skipn 4 line)
  else if startswith line (lit "---") then DividerLine
  else TextLine 2 line.

(** Lines 122-148: the text element, the text object and the block. *)
Definition build_text_block (block_type : Z) (text_content : str) : Block :=
  let text_run := mkTextRun (Some text_content) (Some mkTextElementStyle) in
  let text_element := mkTextElement (Some text_run) in
  let text_obj := mkText (Some [text_element]) (Some mkTextStyle) in
  let block_builder := set_block_type block_type Block_builder in
  if block_type =? 2 then set_text text_obj block_builder
  else if block_type =? 3 then set_heading1 text_obj block_builder
  else if block_type =? 4 then set_heading2 text_obj block_builder
  else if block_type =? 5 then set_heading3 text_obj block_builder
  else block_builder.

(** Lines 116-119. *)
Definition build_divider_block : Block :=
  set_divider mkDivider (set_block_type 22 Block_builder).

(** One iteration of [for line in lines], on the list built so far. *)
Definition loop_body (blocks : list Block) (line : str) : list Block :=
  let line := strip line in
  if negb (nonempty line) then blocks
  else match classify line with
       | DividerLine => blocks ++ [build_divider_block]
       | TextLine block_type text_content =>
           blocks ++ [build_text_block block_type text_content]
       end.

Definition _markdown_to_sdk_blocks (md_text : str) : list Block :=
  let blocks := [] in
  let lines := split nl md_text in
  fold_left loop_body lines blocks.

End Parser.
Import Parser.

(* ================================================================== *)
(** ** The block model of the specification, as a view on SDK blocks *)

Inductive Kind := Paragraph | Heading1 | Heading2 | Heading3 | DividerKind.

(** The SDK block standing for a block of the given kind and text: the
  block type number and the one payload field of that kind. *)
Definition sdk_text (t : str) : Text :=
  mkText (Some [mkTextElement
                  (Some (mkTextRun (Some t) (Some mkTextElementStyle)))])
         (Some mkTextStyle).

Definition block_of (k : Kind) (t : str) : Block :=
  match k with
  | Paragraph => mkBlock (Some 2%Z) (Some (sdk_text t)) None None None None
  | Heading1 => mkBlock (Some 3%Z) None (Some (sdk_text t)) None None None
  | Heading2 => mkBlock (Some 4%Z) None None (Some (sdk_text t)) None None
  | Heading3 => mkBlock (Some 5%Z) None None None (Some (sdk_text t)) None
  | DividerKind => mkBlock (Some 22%Z) None None None None (Some mkDivider)
  end.

Definition kind_of (b : Block) : option Kind :=
  match block_type b with
  | Some 2%Z => Some Paragraph
  | Some 3%Z => Some Heading1
  | Some 4%Z => Some Heading2
  | Some 5%Z => Some Heading3
  | Some 22%Z => Some DividerKind
  | _ => None
  end.

(** The text a [Text] payload carries: its runs' contents, in order. *)
Definition run_content (e : TextElement) : str :=
  match text_run e with
  | Some r => match content r with Some s => s | None => [] end
  | None => []
  end.

Definition text_content_of (t : Text) : str :=
  match elements t with
  | Some es => concat (map run_content es)
  | None => []
  end.

(** The text of a block: that of whichever text payload is set, [None]
  when the block carries no text payload at all. *)
Definition text_of (b : Block) : option str :=
  match text b, heading1 b, heading2 b, heading3 b with
  | Some t, _, _, _ => Some (text_content_of t)
  | None, Some t, _, _ => Some (text_content_of t)
  | None, None, Some t, _ => Some (text_content_of t)
  | None, None, None, Some t => Some (text_content_of t)
  | None, None, None, None => None
  end.


(* ================================================================== *)
(** ** Batches: [range(0, len(blocks), batch_size)] and [blocks[i:i+batch_size]] *)

Module Batching.

(** [range(start, stop, step)] for [step >= 1]; [stop - start] iterations
    are always enough then. *)
Fixpoint range_from (fuel start stop step : nat) : list nat :=
  match fuel with
  | 0 => []
  | S fuel' =>
      if start <? stop then start :: range_from fuel' (start + step) stop step
      else []
  end.

Definition range (start stop step : nat) : list nat :=
  range_from (stop - start) start stop step.

(** [l[i:j]] for [0 <= i]: Python clamps both ends to the list. *)
Definition slice {A} (l : list A) (i j : nat) : list A :=
  firstn (j - i) (skipn i l).

(** The successive values of [batch_blocks] in the loop of
    [_batch_write_blocks], for a given value of the local [batch_size]. *)
Definition batches {A} (batch_size : nat) (blocks : list A) : list (list A) :=
  map (fun i => slice blocks i (i + batch_size))
      (range 0 (length blocks) batch_size).

End Batching.
Import Batching.

(* ================================================================== *)
(** ** Effects: log, remote calls, exceptions *)

Module Effects.

(** The exception classes the code tells apart; all derive from
    [Exception]. *)
Inductive exn :=
| Timeout            (* requests.exceptions.Timeout *)
| ConnectionError    (* requests.exceptions.ConnectionError *)
| HTTPError          (* raised by raise_for_status *)
| JSONDecodeError    (* raised by response.json() *)
| AttributeError     (* attribute access on None or on a non-dict *)
| OtherException (tag : nat).

Inductive Res (A : Type) :=
| Ret (a : A)
| Raise (e : exn).
Arguments Ret {A} a.
Arguments Raise {A} e.

(** What a method without a [return] statement returns. *)
Inductive NoneType := PyNone.

(** *** SDK requests and responses *)

Record Client := mkClient {
  client_app_id : option str;
  client_app_secret : option str
}.

Record CreateDocumentRequest := mkCreateDocumentRequest {
  req_folder_token : option str;
  req_title : str
}.

Record Document := mkDocument { document_id : option str }.
Record CreateDocumentResponseBody := mkCreateDocumentResponseBody {
  document : option Document
}.
Record CreateDocumentResponse := mkCreateDocumentResponse {
  create_success : bool;
  create_code : Z;
  create_msg : str;
  data : option CreateDocumentResponseBody
}.

Record CreateDocumentBlockChildrenRequest := mkChildrenRequest {
  req_document_id : option str;
  req_block_id : option str;
  children : list Block;
  index : Z
}.

Record CreateDocumentBlockChildrenResponse := mkChildrenResponse {
  success : bool;
  code : Z;
  msg : str
}.

(** *** The bot webhook *)

(** The JSON message of [_send_doc_link_to_feishu]: its fixed parts are
    constants of the source, the interpolated ones are kept. *)
Record MsgBody := mkMsgBody {
  msg_title : str;
  msg_doc_url : str;
  msg_time : str
}.

Record PostRequest := mkPostRequest {
  url : option str;
  post_data : MsgBody;
  timeout : Z
}.

(* Only the top level of a decoded body is ever inspected. *)
Unset Elimination Schemes.
Inductive json :=
| JNull
| JBool (b : bool)
| JNum (z : Z)
| JStr (s : str)
| JArr (items : list json)
| JObj (fields : list (str * json)).
Set Elimination Schemes.

(** A [requests.Response]: the status code and the body as
    [response.json()] decodes it, [None] when it is not JSON. *)
Record Response := mkResponse {
  status_code : Z;
  body : option json
}.

(** *** The log *)

Inductive level := INFO | WARNING | ERROR.

Inductive message :=
| ConfigIncompleteMsg                               (* line 36 *)
| SdkNotInitialisedMsg                              (* line 51 *)
| CreateDocFailedMsg (code : Z) (msg : str)         (* line 65 *)
| DocCreatedMsg (doc_url : str)                     (* line 71 *)
| ContentWrittenMsg                                 (* line 76 *)
| WebhookNotConfiguredMsg                           (* line 82 *)
| PipelineExceptionMsg (e : exn)                    (* line 87 *)
| WriteBlockFailedMsg (batch_no : nat) (code : Z) (msg : str) (* line 171 *)
| PushOkMsg                                         (* line 207 *)
| PushRejectedMsg (result : json)                   (* line 209 *)
| PushTimeoutMsg                                    (* line 212 *)
| PushConnectionErrorMsg                            (* line 214 *)
| PushExceptionMsg (e : exn).                       (* line 216 *)

Definition LogRecord := (level * message)%type.

(** *** The world outside *)

Inductive Call :=
| CallDocumentCreate (c : Client) (r : CreateDocumentRequest)
| CallBlockChildrenCreate (c : Client) (r : CreateDocumentBlockChildrenRequest)
| CallPost (r : PostRequest).

(** How the remote side answers.  Each answer may depend on how many
    remote calls were made before it, so that equal requests can be
    answered differently. *)
Record Remote := mkRemote {
  document_create : nat -> Client -> CreateDocumentRequest -> Res CreateDocumentResponse;
  document_block_children_create :
    nat -> Client -> CreateDocumentBlockChildrenRequest
    -> Res CreateDocumentBlockChildrenResponse;
  requests_post : nat -> PostRequest -> Res Response;
  datetime_now : str
}.

Record State := mkState {
  log : list LogRecord;
  trace : list Call
}.

Definition M (A : Type) : Type := State -> Res A * State.

Definition ret {A} (a : A) : M A := fun s => (Ret a, s).

Definition raise {A} (e : exn) : M A := fun s => (Raise e, s).

Definition bind {A B} (m : M A) (k : A -> M B) : M B :=
  fun s =>
    match m s with
    | (Ret a, s') => k a s'
    | (Raise e, s') => (Raise e, s')
    end.

(** [try: body  except ... : handler e] *)
Definition try_except {A} (body : M A) (handler : exn -> M A) : M A :=
  fun s =>
    match body s with
    | (Ret a, s') => (Ret a, s')
    | (Raise e, s') => handler e s'
    end.

Definition logger (lv : level) (m : message) : M NoneType :=
  fun s => (Ret PyNone, mkState (log s ++ [(lv, m)]) (trace s)).

(** A remote call: recorded in the trace, answered by the oracle. *)
Definition remote {A} (c : Call) (answer : nat -> Res A) : M A :=
  fun s => (answer (length (trace s)), mkState (log s) (trace s ++ [c])).

(** [for x in l: body x] *)
Fixpoint for_each {A} (l : list A) (body : A -> M NoneType) : M NoneType :=
  match l with
  | [] => ret PyNone
  | x :: l' => bind (body x) (fun _ => for_each l' body)
  end.

End Effects.
Import Effects.

Declare Scope py_scope.
Delimit Scope py_scope with py.
Notation "x <- c ;; k" := (bind c (fun x => k))
  (at level 61, c at next level, right associativity) : py_scope.
Notation "c ;; k" := (bind c (fun _ => k))
  (at level 61, right associativity) : py_scope.

(* ================================================================== *)
(** ** [FeishuDocManager] *)

Module Manager.

Local Open Scope py_scope.

(** [src.config.config]: the four settings the manager reads; each is a
    string or [None]. *)
Record Config := mkConfig {
  feishu_app_id : option str;
  feishu_app_secret : option str;
  feishu_folder_token : option str;
  feishu_bot_webhook : option str
}.

Record FeishuDocManager := mkManager {
  app_id : option str;
  app_secret : option str;
  folder_token : option str;
  bot_webhook : option str;
  client : option Client
}.

(** [bool(v)] for a value that is a string or [None]. *)
Definition truthy (v : option str) : bool :=
  match v with
  | Some s => nonempty s
  | None => false
  end.

(** [x and y] *)
Definition py_and (x y : option str) : option str :=
  if truthy x then y else x.

Definition is_configured (self : FeishuDocManager) : bool :=
  truthy (py_and (py_and (app_id self) (app_secret self)) (folder_token self)).

(** [__init__]: the client is built only when [is_configured()] holds. *)
Definition __init__ (config : Config) : M FeishuDocManager :=
  let self := mkManager (feishu_app_id config) (feishu_app_secret config)
                        (feishu_folder_token config) (feishu_bot_webhook config)
                        None in
  if is_configured self then
    ret (mkManager (app_id self) (app_secret self) (folder_token self)
                   (bot_webhook self)
                   (Some (mkClient (app_id self) (app_secret self))))
  else
    logger WARNING ConfigIncompleteMsg ;;
    ret self.

(** [self.client.docx.v1. ...]: attribute access on [self.client]. *)
Definition get_client (self : FeishuDocManager) : M Client :=
  match client self with
  | Some c => ret c
  | None => raise AttributeError
  end.

(** [f"{v}"] for a string or [None]. *)
Definition format (v : option str) : str :=
  match v with
  | Some s => s
  | None => lit "None"
  end.

(** The hard-wired [batch_size] of [_batch_write_blocks]. *)
Definition batch_size : nat := 50.

(** One iteration of the loop of [_batch_write_blocks], at index [i]. *)
Definition write_batch (R : Remote) (self : FeishuDocManager)
    (doc_id : option str) (blocks : list Block) (i : nat) : M NoneType :=
  let doc_block_id := doc_id in
  let batch_blocks := slice blocks i (i + batch_size) in
  let add_request := mkChildrenRequest doc_id doc_block_id batch_blocks (-1) in
  c <- get_client self ;;
  resp <- remote (CallBlockChildrenCreate c add_request)
                 (fun n => document_block_children_create R n c add_request) ;;
  if negb (success resp) then
    logger ERROR (WriteBlockFailedMsg (i / batch_size + 1) (code resp) (msg resp))
  else ret PyNone.

Definition _batch_write_blocks (R : Remote) (self : FeishuDocManager)
    (doc_id : option str) (blocks : list Block) : M NoneType :=
  for_each (range 0 (length blocks) batch_size)
           (write_batch R self doc_id blocks).

(** [response.raise_for_status()] *)
Definition raise_for_status (response : Response) : M NoneType :=
  if ((400 <=? status_code response) && (status_code response <? 600))%Z
  then raise HTTPError else ret PyNone.

(** [response.json()] *)
Definition response_json (response : Response) : M json :=
  match body response with
  | Some j => ret j
  | None => raise JSONDecodeError
  end.

(** [d.get(key)] on a decoded object: the last binding of a repeated key
    is the one the decoder kept. *)
Fixpoint dict_get (fields : list (str * json)) (key : str) : option json :=
  match fields with
  | [] => None
  | (k, v) :: fields' =>
      match dict_get fields' key with
      | Some v' => Some v'
      | None => if list_eq_dec N.eq_dec k key then Some v else None
      end
  end.

(** [result.get("code")]: only a dict has [get]. *)
Definition result_get_code (result : json) : M (option json) :=
  match result with
  | JObj fields => ret (dict_get fields (lit "code"))
  | _ => raise AttributeError
  end.

(** [v == 0], for the integers and booleans of a decoded body. *)
Definition equals_zero (v : option json) : bool :=
  match v with
  | Some (JNum z) => (z =? 0)%Z
  | Some (JBool b) => negb b
  | _ => false
  end.

Definition _send_doc_link_to_feishu (R : Remote) (self : FeishuDocManager)
    (title doc_url : str) : M NoneType :=
  let msg_body := mkMsgBody title doc_url (datetime_now R) in
  try_except
    (let request := mkPostRequest (bot_webhook self) msg_body 10 in
     response <- remote (CallPost request) (fun n => requests_post R n request) ;;
     raise_for_status response ;;
     result <- response_json response ;;
     c <- result_get_code result ;;
     if equals_zero c then logger INFO PushOkMsg
     else logger ERROR (PushRejectedMsg result))
    (fun e =>
       match e with
       | Timeout => logger ERROR PushTimeoutMsg
       | ConnectionError => logger ERROR PushConnectionErrorMsg
       | _ => logger ERROR (PushExceptionMsg e)
       end).

(** [response.data.document.document_id] *)
Definition get_document_id (response : CreateDocumentResponse) : M (option str) :=
  match data response with
  | None => raise AttributeError
  | Some d =>
      match document d with
      | None => raise AttributeError
      | Some doc => ret (document_id doc)
      end
  end.

(** The body of the [try] block of [create_daily_doc] (lines 55-84). *)
Definition create_daily_doc_try (R : Remote) (self : FeishuDocManager)
    (title content_md : str) : M (option str) :=
  let create_request := mkCreateDocumentRequest (folder_token self) title in
  c <- get_client self ;;
  response <- remote (CallDocumentCreate c create_request)
                     (fun n => document_create R n c create_request) ;;
  if negb (create_success response) then
    logger ERROR (CreateDocFailedMsg (create_code response)
                                     (create_msg response)) ;;
    ret None
  else
    doc_id <- get_document_id response ;;
    let doc_url := lit "https://feishu.cn/docx/" ++ format doc_id in
    logger INFO (DocCreatedMsg doc_url) ;;
    let blocks := _markdown_to_sdk_blocks content_md in
    _batch_write_blocks R self doc_id blocks ;;
    logger INFO ContentWrittenMsg ;;
    (if truthy (bot_webhook self)
     then _send_doc_link_to_feishu R self title doc_url
     else logger WARNING WebhookNotConfiguredMsg) ;;
    ret (Some doc_url).

(** [not self.client]: a client object is truthy, [None] is not. *)
Definition client_truthy (self : FeishuDocManager) : bool :=
  match client self with Some _ => true | None => false end.

Definition create_daily_doc (R : Remote) (self : FeishuDocManager)
    (title content_md : str) : M (option str) :=
  if negb (client_truthy self) || negb (is_configured self) then
    logger ERROR SdkNotInitialisedMsg ;;
    ret None
  else
    try_except
      (create_daily_doc_try R self title content_md)
      (fun e =>
         logger ERROR (PipelineExceptionMsg e) ;;
         ret None).

End Manager.
Import Manager.

(* ================================================================== *)
(** ** The specification's vocabulary *)

(** Classification as the specification words it: the longest marker is
    tried first. *)
Definition spec_classify (t : str) : Block :=
  if startswith t (lit "### ") then block_of Heading3 (skipn 4 t)
  else if startswith t (lit "## ") then block_of Heading2 (skipn 3 t)
  else if startswith t (lit "# ") then block_of Heading1 (skipn 2 t)
  else if startswith t (lit "---") then block_of DividerKind []
  else block_of Paragraph t.

(** A blank line: empty, or whitespace only. *)
Definition blank (line : str) : bool := forallb isspace line.

(** The blocks of one line as the specification words it. *)
Definition spec_line (line : str) : list Block :=
  if blank line then [] else [spec_classify (strip line)].

(** The marker that stands for a kind in the textual reconstruction. *)
Definition marker (k : Kind) : str :=
  match k with
  | Paragraph => []
  | Heading1 => lit "# "
  | Heading2 => lit "## "
  | Heading3 => lit "### "
  | DividerKind => lit "---"
  end.

Definition block_line (b : Block) : str :=
  match kind_of b with
  | Some k => marker k ++ match text_of b with Some t => t | None => [] end
  | None => []
  end.

(** Re-prefix every block's text with its marker, rejoin with newlines. *)
Definition reconstruct (blocks : list Block) : str :=
  join nl (map block_line blocks).

(** The invariant of the block model. *)
Definition block_invariant (b : Block) : Prop :=
  match kind_of b with
  | Some DividerKind => text_of b = None
  | Some _ => exists t, text_of b = Some t /\ strip t <> []
  | None => False
  end.

(** A stripped string neither starts nor ends with whitespace. *)
Definition trimmed (s : str) : Prop := lstrip s = s /\ lstrip (rev s) = rev s.

(** A line with whitespace added before and after it. *)
Definition padded (line' line : str) : Prop :=
  exists w1 w2, forallb isspace w1 = true /\ forallb isspace w2 = true /\
                line' = w1 ++ line ++ w2.

(** A setting is present when it is set to a non-empty string. *)
Definition present (v : option str) : Prop :=
  exists s, v = Some s /\ s <> [].

(** The requests [_batch_write_blocks] is to send, one per batch. *)
Definition batch_requests (doc_id : option str) (blocks : list Block)
  : list CreateDocumentBlockChildrenRequest :=
  map (fun b => mkChildrenRequest doc_id doc_id b (-1)) (batches batch_size blocks).

(** The log record of batch number [k] (from 0), given its answer. *)
Definition failure_record (k : nat) (r : Res CreateDocumentBlockChildrenResponse)
  : list LogRecord :=
  match r with
  | Ret resp =>
      if success resp then []
      else [(ERROR, WriteBlockFailedMsg (k + 1) (code resp) (msg resp))]
  | Raise _ => []
  end.

(** The same oracle with another webhook behaviour and clock. *)
Definition with_notification (R : Remote)
    (post : nat -> PostRequest -> Res Response) (now : str) : Remote :=
  mkRemote (document_create R) (document_block_children_create R) post now.

(* ================================================================== *)
(** ** Sample runs *)

Definition sample_client : Client :=
  mkClient (Some (lit "cli_app")) (Some (lit "secret")).

Definition sample_manager : FeishuDocManager :=
  mkManager (Some (lit "cli_app")) (Some (lit "secret")) (Some (lit "fldr"))
            (Some (lit "https://open.feishu.cn/hook")) (Some sample_client).

(** A successful answer of the document creation, for a document id. *)
Definition created (doc_id : str) : CreateDocumentResponse :=
  mkCreateDocumentResponse true 0 []
    (Some (mkCreateDocumentResponseBody (Some (mkDocument (Some doc_id))))).

(** A remote side that creates document "doc1", accepts or refuses every
    batch, and answers the webhook as given. *)
Definition sample_remote (append_ok : bool) (post : Res Response) : Remote :=
  mkRemote (fun _ _ _ => Ret (created (lit "doc1")))
           (fun _ _ _ => Ret (mkChildrenResponse append_ok
                                (if append_ok then 0 else 1770001)%Z []))
           (fun _ _ => post)
           (lit "2026-03-04 18:00:00").

(** A remote side whose document creation raises. *)
Definition broken_remote (e : exn) : Remote :=
  mkRemote (fun _ _ _ => Raise e)
           (fun _ _ _ => Raise e)
           (fun _ _ => Raise e)
           [].

Definition empty_state : State := mkState [] [].

(** The body [{"code": 0}] of a webhook answer. *)
Definition ok_body : json := JObj [(lit "code", JNum 0)].

(* ================================================================== *)
(** ** Vocabulary for the further properties *)

(** The link [create_daily_doc] builds for a document id (line 70). *)
Definition doc_url_of (doc_id : option str) : str :=
  lit "https://feishu.cn/docx/" ++ format doc_id.

(** The request of [create_daily_doc] to the document API (lines 56-61). *)
Definition create_request_of (self : FeishuDocManager) (title : str)
  : CreateDocumentRequest :=
  mkCreateDocumentRequest (folder_token self) title.

(** The one POST of [_send_doc_link_to_feishu] (lines 180-202). *)
Definition post_request_of (R : Remote) (self : FeishuDocManager)
    (title doc_url : str) : PostRequest :=
  mkPostRequest (bot_webhook self) (mkMsgBody title doc_url (datetime_now R)) 10.

Definition is_post (c : Call) : bool :=
  match c with CallPost _ => true | _ => false end.

(** The placeholder used when a request is looked up by position. *)
Definition no_request : CreateDocumentBlockChildrenRequest :=
  mkChildrenRequest None None [] 0.

(** What is left of a stripped line after a round through the parser:
    the line itself, or the bare marker of a divider line. *)
Definition normalise_line (t : str) : str :=
  if startswith t (lit "---") then lit "---" else t.

(** ["\r\n".join(parts)] *)
Fixpoint join_crlf (parts : list str) : str :=
  match parts with
  | [] => []
  | [p] => p
  | p :: ps => p ++ 13%N :: nl :: join_crlf ps
  end.

(** A webhook answer the code logs as delivered: no 4xx or 5xx status,
    a JSON object as body, and its "code" equal to 0. *)
Definition accepted (r : Res Response) : Prop :=
  exists resp fields,
    r = Ret resp /\
    ((400 <=? status_code resp) && (status_code resp <? 600))%Z = false /\
    body resp = Some (JObj fields) /\
    equals_zero (dict_get fields (lit "code")) = true.

(* ================================================================== *)
(** * Theory *)

(** ** Stripping *)

Section Strip.

Implicit Types (s w x : str) (c : char).

Lemma lstrip_app_space w s :
  forallb isspace w = true -> lstrip (w ++ s) = lstrip s.
Proof.
  induction w as [|c w IH]; simpl; [reflexivity|].
  intros H. apply andb_true_iff in H as [Hc Hw]. rewrite Hc. auto.
Qed.

Lemma lstrip_nil_iff s : lstrip s = [] <-> forallb isspace s = true.
Proof.
  induction s as [|c s IH]; simpl; [tauto|].
  destruct (isspace c); simpl; [exact IH|].
  split; discriminate.
Qed.

Lemma forallb_lstrip s : forallb isspace (lstrip s) = forallb isspace s.
Proof.
  induction s as [|c s IH]; simpl; [reflexivity|].
  destruct (isspace c) eqn:E; simpl; [exact IH|].
  rewrite E. reflexivity.
Qed.

Lemma forallb_rev (f : char -> bool) s : forallb f (rev s) = forallb f s.
Proof.
  induction s as [|c s IH]; simpl; [reflexivity|].
  rewrite forallb_app, IH. simpl. rewrite andb_true_r. apply andb_comm.
Qed.

Lemma lstrip_idem s : lstrip (lstrip s) = lstrip s.
Proof.
  induction s as [|c s IH]; simpl; [reflexivity|].
  destruct (isspace c) eqn:E; [exact IH|].
  simpl. rewrite E. reflexivity.
Qed.

Lemma lstrip_app_keep s x : lstrip s <> [] -> lstrip (s ++ x) = lstrip s ++ x.
Proof.
  induction s as [|c s IH]; simpl; [congruence|].
  destruct (isspace c); auto.
Qed.

Lemma lstrip_snoc s c : isspace c = false -> lstrip (s ++ [c]) = lstrip s ++ [c].
Proof.
  intros Hc. induction s as [|d s IH]; simpl.
  - rewrite Hc. reflexivity.
  - destruct (isspace d); auto.
Qed.

Lemma rstrip_app_space s w :
  forallb isspace w = true -> rstrip (s ++ w) = rstrip s.
Proof.
  intros H. unfold rstrip. rewrite rev_app_distr, lstrip_app_space; auto.
  rewrite forallb_rev. exact H.
Qed.

Lemma rstrip_cons_keep c s : isspace c = false -> rstrip (c :: s) = c :: rstrip s.
Proof.
  intros H. unfold rstrip. simpl. rewrite lstrip_snoc by exact H.
  rewrite rev_app_distr. reflexivity.
Qed.

Lemma rstrip_nil_iff s : rstrip s = [] <-> forallb isspace s = true.
Proof.
  unfold rstrip. rewrite <- (forallb_rev isspace s), <- lstrip_nil_iff.
  split; intros H.
  - apply (f_equal (@rev char)) in H. rewrite rev_involutive in H. exact H.
  - rewrite H. reflexivity.
Qed.

Lemma strip_nil_iff s : strip s = [] <-> forallb isspace s = true.
Proof.
  unfold strip. rewrite rstrip_nil_iff, forallb_lstrip. tauto.
Qed.

Lemma nonempty_strip s : nonempty (strip s) = negb (blank s).
Proof.
  unfold blank. destruct (forallb isspace s) eqn:E.
  - apply strip_nil_iff in E. rewrite E. reflexivity.
  - destruct (strip s) eqn:Es; [|reflexivity].
    apply strip_nil_iff in Es. congruence.
Qed.

(** Whitespace on either side of a string does not survive [strip]. *)
Lemma strip_pad w1 s w2 :
  forallb isspace w1 = true -> forallb isspace w2 = true ->
  strip (w1 ++ s ++ w2) = strip s.
Proof.
  intros H1 H2. unfold strip. rewrite lstrip_app_space by exact H1.
  destruct (lstrip s) eqn:E.
  - apply lstrip_nil_iff in E.
    assert (H : lstrip (s ++ w2) = []).
    { apply lstrip_nil_iff. rewrite forallb_app, E, H2. reflexivity. }
    rewrite H. reflexivity.
  - rewrite lstrip_app_keep by congruence. rewrite E.
    apply rstrip_app_space. exact H2.
Qed.

Lemma lstrip_fix_rstrip s : lstrip s = s -> lstrip (rstrip s) = rstrip s.
Proof.
  destruct s as [|c s]; [reflexivity|].
  simpl. destruct (isspace c) eqn:E.
  - intros H. exfalso.
    assert (Hlen : forall x, length (lstrip x) <= length x).
    { induction x as [|d x IH]; simpl; [lia|]. destruct (isspace d); simpl; lia. }
    specialize (Hlen s). rewrite H in Hlen. simpl in Hlen. lia.
  - intros _. rewrite rstrip_cons_keep by exact E. simpl. rewrite E. reflexivity.
Qed.

Lemma strip_trimmed s : trimmed (strip s).
Proof.
  split.
  - unfold strip. apply lstrip_fix_rstrip, lstrip_idem.
  - unfold strip, rstrip. rewrite rev_involutive. apply lstrip_idem.
Qed.

Lemma trimmed_strip s : trimmed s -> strip s = s.
Proof.
  intros [H1 H2]. unfold strip, rstrip. rewrite H1, H2. apply rev_involutive.
Qed.

Lemma strip_idem s : strip (strip s) = strip s.
Proof. apply trimmed_strip, strip_trimmed. Qed.

(** The last character of a stripped string is not whitespace. *)
Lemma trimmed_last s c : trimmed (s ++ [c]) -> isspace c = false.
Proof.
  intros [_ H]. rewrite rev_app_distr in H. simpl in H.
  destruct (isspace c) eqn:E; [|reflexivity]. exfalso.
  assert (Hlen : forall x, length (lstrip x) <= length x).
  { induction x as [|d x IH]; simpl; [lia|]. destruct (isspace d); simpl; lia. }
  specialize (Hlen (rev s)). rewrite H in Hlen. simpl in Hlen. lia.
Qed.

Lemma strip_incl s c : In c (strip s) -> In c s.
Proof.
  assert (Hl : forall x, In c (lstrip x) -> In c x).
  { induction x as [|d x IH]; simpl; [tauto|].
    destruct (isspace d); simpl; tauto. }
  unfold strip, rstrip. intros H. apply in_rev in H. apply Hl in H.
  apply in_rev in H. apply Hl. exact H.
Qed.

End Strip.

(** ** Splitting and joining on newlines *)

Section Lines.

Implicit Types (s a b : str) (ls : list str).

Lemma split_not_nil s : split nl s <> [].
Proof.
  destruct s as [|c s]; simpl; [discriminate|].
  destruct (c =? nl)%N; [discriminate|].
  destruct (split nl s); discriminate.
Qed.

Lemma split_cons_keep c s :
  c <> nl -> exists h t, split nl s = h :: t /\ split nl (c :: s) = (c :: h) :: t.
Proof.
  intros Hc. simpl. destruct (N.eqb_spec c nl) as [E|_]; [contradiction|].
  destruct (split nl s) as [|h t] eqn:E; [exfalso; exact (split_not_nil _ E)|].
  eauto.
Qed.

Lemma split_app_nl a b : split nl (a ++ nl :: b) = split nl a ++ split nl b.
Proof.
  induction a as [|c a IH]; simpl; [reflexivity|].
  destruct (c =? nl)%N; rewrite IH; [reflexivity|].
  destruct (split nl a) eqn:E; [exfalso; exact (split_not_nil _ E)|].
  reflexivity.
Qed.

Lemma split_no_nl s : ~ In nl s -> split nl s = [s].
Proof.
  induction s as [|c s IH]; simpl; [reflexivity|].
  intros H. destruct (N.eqb_spec c nl) as [E|_]; [tauto|].
  rewrite IH by tauto. reflexivity.
Qed.

Lemma split_lines_no_nl s : Forall (fun l => ~ In nl l) (split nl s).
Proof.
  induction s as [|c s IH]; simpl; [repeat constructor; tauto|].
  destruct (N.eqb_spec c nl) as [E|E]; [constructor; [tauto|exact IH]|].
  destruct (split nl s) as [|h t]; [repeat constructor; simpl; intuition congruence|].
  inversion IH; subst. constructor; [simpl; intuition congruence|assumption].
Qed.

(** Appending a character other than the newline extends the last line. *)
Lemma split_snoc s c :
  c <> nl ->
  split nl (s ++ [c]) = removelast (split nl s) ++ [last (split nl s) [] ++ [c]].
Proof.
  intros Hc. induction s as [|d s IH].
  - simpl. destruct (N.eqb_spec c nl); [contradiction|reflexivity].
  - cbn [app split]. rewrite IH.
    pose proof (split_not_nil s) as Hne.
    destruct (split nl s) as [|h t]; [congruence|].
    destruct (d =? nl)%N.
    + destruct t; reflexivity.
    + destruct t as [|h' t]; [reflexivity|].
      change (removelast (h :: h' :: t)) with (h :: removelast (h' :: t)).
      change (last (h :: h' :: t) []) with (last (h' :: t) []).
      change (removelast ((d :: h) :: h' :: t))
        with ((d :: h) :: removelast (h' :: t)).
      change (last ((d :: h) :: h' :: t) []) with (last (h' :: t) []).
      reflexivity.
Qed.

End Lines.

(** ** The parser, line by line *)

Section ParserTheory.

Implicit Types (s t line : str).

Lemma startswith_app t p :
  startswith t p = true -> t = p ++ skipn (length p) t.
Proof.
  revert t. induction p as [|a p IH]; intros t; simpl; [reflexivity|].
  destruct t as [|c t]; [discriminate|].
  intros H. apply andb_true_iff in H as [Hc Ht].
  apply N.eqb_eq in Hc. subst c. simpl. f_equal. auto.
Qed.

Lemma startswith_nil t : startswith t [] = true.
Proof. destruct t; reflexivity. Qed.

(** The four markers exclude one another, so the order in which the
    source tests them and the order of the specification agree. *)
Lemma classify_spec t :
  match classify t with
  | DividerLine => build_divider_block
  | TextLine block_type text_content => build_text_block block_type text_content
  end = spec_classify t.
Proof.
  unfold classify, spec_classify.
  change (lit "# ") with [35; 32]%N.
  change (lit "## ") with [35; 35; 32]%N.
  change (lit "### ") with [35; 35; 35; 32]%N.
  change (lit "---") with [45; 45; 45]%N.
  destruct t as [|a [|b [|c [|d t]]]]; cbn [startswith];
    repeat match goal with
           | |- context [(?x =? ?y)%N] => destruct (N.eqb_spec x y); subst
           end;
    cbn [andb]; rewrite ?startswith_nil; try discriminate; try congruence;
    reflexivity.
Qed.

Lemma loop_body_spec blocks line :
  loop_body blocks line = blocks ++ spec_line line.
Proof.
  unfold loop_body, spec_line. rewrite nonempty_strip, negb_involutive.
  destruct (blank line); [symmetry; apply app_nil_r|].
  rewrite <- classify_spec. destruct (classify (strip line)); reflexivity.
Qed.

Lemma fold_loop_body lines blocks :
  fold_left loop_body lines blocks = blocks ++ flat_map spec_line lines.
Proof.
  revert blocks. induction lines as [|l lines IH]; intros blocks; simpl.
  - symmetry. apply app_nil_r.
  - rewrite IH, loop_body_spec, <- app_assoc. reflexivity.
Qed.

Lemma parse_lines md :
  _markdown_to_sdk_blocks md = flat_map spec_line (split nl md).
Proof. unfold _markdown_to_sdk_blocks. apply fold_loop_body. Qed.

Lemma parse_app_nl (a b : str) :
  _markdown_to_sdk_blocks (a ++ nl :: b)
  = _markdown_to_sdk_blocks a ++ _markdown_to_sdk_blocks b.
Proof. rewrite !parse_lines, split_app_nl. apply flat_map_app. Qed.

Lemma parse_join ls :
  _markdown_to_sdk_blocks (join nl ls) = flat_map _markdown_to_sdk_blocks ls.
Proof.
  induction ls as [|l ls IH]; [reflexivity|].
  destruct ls as [|l' ls].
  - simpl. symmetry. apply app_nil_r.
  - change (join nl (l :: l' :: ls)) with (l ++ nl :: join nl (l' :: ls)).
    rewrite parse_app_nl, IH. reflexivity.
Qed.

Lemma spec_line_cons_space c line :
  isspace c = true -> spec_line (c :: line) = spec_line line.
Proof.
  intros Hc. unfold spec_line, blank, strip. simpl. rewrite Hc. reflexivity.
Qed.

Lemma spec_line_snoc_space line c :
  isspace c = true -> spec_line (line ++ [c]) = spec_line line.
Proof.
  intros Hc. unfold spec_line, blank.
  rewrite forallb_app. simpl. rewrite Hc, !andb_true_r.
  assert (Hs : strip (line ++ [c]) = strip line).
  { apply (strip_pad [] line [c]); [reflexivity|].
    simpl. rewrite Hc. reflexivity. }
  rewrite Hs. reflexivity.
Qed.

Lemma parse_cons_space c s :
  isspace c = true ->
  _markdown_to_sdk_blocks (c :: s) = _markdown_to_sdk_blocks s.
Proof.
  intros Hc. destruct (N.eq_dec c nl) as [E|E].
  - subst c. apply (parse_app_nl [] s).
  - rewrite !parse_lines.
    destruct (split_cons_keep c s E) as (h & t & H1 & H2).
    rewrite H1, H2. simpl. rewrite spec_line_cons_space by exact Hc. reflexivity.
Qed.

Lemma parse_snoc_space s c :
  isspace c = true ->
  _markdown_to_sdk_blocks (s ++ [c]) = _markdown_to_sdk_blocks s.
Proof.
  intros Hc. destruct (N.eq_dec c nl) as [E|E].
  - subst c. rewrite parse_app_nl. apply app_nil_r.
  - rewrite !parse_lines, split_snoc by exact E.
    rewrite (app_removelast_last [] (split_not_nil s)) at 3.
    rewrite !flat_map_app. simpl.
    rewrite spec_line_snoc_space by exact Hc. reflexivity.
Qed.

Lemma parse_pad w1 s w2 :
  forallb isspace w1 = true -> forallb isspace w2 = true ->
  _markdown_to_sdk_blocks (w1 ++ s ++ w2) = _markdown_to_sdk_blocks s.
Proof.
  intros H1 H2. induction w1 as [|c w1 IH].
  - simpl. clear H1. induction w2 as [|c w2 IH] using rev_ind.
    + rewrite app_nil_r. reflexivity.
    + rewrite forallb_app in H2. apply andb_true_iff in H2 as [Hw Hc].
      simpl in Hc. rewrite andb_true_r in Hc.
      rewrite app_assoc, parse_snoc_space by exact Hc. auto.
  - simpl in H1. apply andb_true_iff in H1 as [Hc Hw].
    simpl. rewrite parse_cons_space by exact Hc. auto.
Qed.

(** A character that is not whitespace somewhere after a given point of
    a stripped string: the rest is not blank. *)
Lemma trimmed_suffix_not_blank a r :
  trimmed (a ++ r) -> r <> [] -> forallb isspace r = false.
Proof.
  intros Ht Hr. destruct (exists_last Hr) as (r' & c & ->).
  rewrite app_assoc in Ht. apply trimmed_last in Ht.
  rewrite forallb_app. simpl. rewrite Ht, andb_false_r. reflexivity.
Qed.

(** The text after a marker that ends in a space is not blank. *)
Lemma heading_text_not_blank t p :
  trimmed t -> startswith t (p ++ [32%N]) = true ->
  strip (skipn (length (p ++ [32%N])) t) <> [].
Proof.
  intros Ht Hs E. apply startswith_app in Hs. apply strip_nil_iff in E.
  assert (Ht' : trimmed (p ++ 32%N :: skipn (length (p ++ [32%N])) t)).
  { change (32%N :: skipn (length (p ++ [32%N])) t)
      with ([32%N] ++ skipn (length (p ++ [32%N])) t).
    rewrite app_assoc. exact (eq_ind t trimmed Ht _ Hs). }
  apply trimmed_suffix_not_blank in Ht'; [|discriminate].
  cbn [forallb] in Ht'. rewrite E in Ht'. discriminate.
Qed.

Lemma text_of_sdk_text t : text_content_of (sdk_text t) = t.
Proof. unfold text_content_of, sdk_text, run_content. simpl. apply app_nil_r. Qed.

Lemma spec_classify_invariant t :
  trimmed t -> t <> [] -> block_invariant (spec_classify t).
Proof.
  intros Ht Hne. unfold spec_classify.
  destruct (startswith t (lit "### ")) eqn:E3.
  { exists (skipn 4 t). split; [cbn; f_equal; apply text_of_sdk_text|].
    exact (heading_text_not_blank t [35; 35; 35]%N Ht E3). }
  destruct (startswith t (lit "## ")) eqn:E2.
  { exists (skipn 3 t). split; [cbn; f_equal; apply text_of_sdk_text|].
    exact (heading_text_not_blank t [35; 35]%N Ht E2). }
  destruct (startswith t (lit "# ")) eqn:E1.
  { exists (skipn 2 t). split; [cbn; f_equal; apply text_of_sdk_text|].
    exact (heading_text_not_blank t [35]%N Ht E1). }
  destruct (startswith t (lit "---")); [reflexivity|].
  exists t. split; [cbn; f_equal; apply text_of_sdk_text|].
  rewrite (trimmed_strip t Ht). exact Hne.
Qed.

Lemma parse_trimmed_line t :
  trimmed t -> t <> [] -> ~ In nl t ->
  _markdown_to_sdk_blocks t = [spec_classify t].
Proof.
  intros Ht Hne Hnl. rewrite parse_lines, split_no_nl by exact Hnl.
  simpl. rewrite app_nil_r. unfold spec_line.
  destruct (blank t) eqn:E.
  - apply strip_nil_iff in E. rewrite (trimmed_strip t Ht) in E. contradiction.
  - rewrite (trimmed_strip t Ht). reflexivity.
Qed.

Lemma block_line_block_of k x :
  block_line (block_of k x)
  = match k with DividerKind => lit "---" | _ => marker k ++ x end.
Proof.
  destruct k; unfold block_line; cbn [block_of kind_of block_type text_of
    text heading1 heading2 heading3]; rewrite ?text_of_sdk_text;
    reflexivity.
Qed.

(** Writing a block of a stripped line back as text and reading it again
    gives the block. *)
Lemma reparse_spec_classify t :
  trimmed t -> t <> [] -> ~ In nl t ->
  _markdown_to_sdk_blocks (block_line (spec_classify t)) = [spec_classify t].
Proof.
  intros Ht Hne Hnl.
  assert (Hback : block_line (spec_classify t) = t ->
                  _markdown_to_sdk_blocks (block_line (spec_classify t))
                  = [spec_classify t]).
  { intros ->. apply parse_trimmed_line; assumption. }
  unfold spec_classify in *.
  destruct (startswith t (lit "### ")) eqn:E3.
  { apply Hback. rewrite block_line_block_of.
    symmetry. exact (startswith_app t (lit "### ") E3). }
  destruct (startswith t (lit "## ")) eqn:E2.
  { apply Hback. rewrite block_line_block_of.
    symmetry. exact (startswith_app t (lit "## ") E2). }
  destruct (startswith t (lit "# ")) eqn:E1.
  { apply Hback. rewrite block_line_block_of.
    symmetry. exact (startswith_app t (lit "# ") E1). }
  destruct (startswith t (lit "---")); [reflexivity|].
  apply Hback. apply block_line_block_of.
Qed.

Lemma flat_map_back {A B} (f : B -> list A) (g : A -> B) (l : list A) :
  Forall (fun a => f (g a) = [a]) l -> flat_map f (map g l) = l.
Proof.
  induction 1 as [|a l Ha _ IH]; simpl; [reflexivity|].
  rewrite Ha, IH. reflexivity.
Qed.

Lemma Forall_flat_map_intro {A B} (P : B -> Prop) (f : A -> list B) (l : list A) :
  Forall (fun a => Forall P (f a)) l -> Forall P (flat_map f l).
Proof.
  induction 1 as [|a l Ha _ IH]; simpl; [constructor|].
  apply Forall_app. split; assumption.
Qed.

(** Every block of the parser comes from a stripped, non-empty,
    single-line string. *)
Lemma parse_blocks_from_lines (P : Block -> Prop) :
  (forall t, trimmed t -> t <> [] -> ~ In nl t -> P (spec_classify t)) ->
  forall md, Forall P (_markdown_to_sdk_blocks md).
Proof.
  intros HP md. rewrite parse_lines. apply Forall_flat_map_intro.
  pose proof (split_lines_no_nl md) as Hnl.
  induction Hnl as [|l ls Hl _ IH]; constructor; [|exact IH].
  unfold spec_line. destruct (blank l) eqn:E; constructor; [|constructor].
  apply HP.
  - apply strip_trimmed.
  - intros H. apply strip_nil_iff in H. unfold blank in E. congruence.
  - intros H. apply Hl. apply strip_incl. exact H.
Qed.

End ParserTheory.

(** ** Properties of the parser *)

(** C1. Every non-blank line is classified by its prefix, the first
    matching marker in the order "### ", "## ", "# ", "---" deciding:
    the heading markers give Heading3, Heading2 and Heading1 with the
    marker's 4, 3 or 2 characters removed from the stripped line, "---"
    gives a Divider without text, anything else a Paragraph holding the
    whole stripped line.  So "# ---" is a Heading1 and "#" alone is a
    Paragraph. *)
Theorem C1_prefix_classification :
  (forall md_text,
     _markdown_to_sdk_blocks md_text
     = flat_map (fun line => if blank line then []
                             else [spec_classify (strip line)])
                (split nl md_text)) /\
  _markdown_to_sdk_blocks (lit "# ---") = [block_of Heading1 (lit "---")] /\
  _markdown_to_sdk_blocks (lit "#") = [block_of Paragraph (lit "#")].
Proof.
  split; [|split; reflexivity].
  intros md_text. apply parse_lines.
Qed.

(** C5. A blank line (empty, or whitespace only) adds no block; the
    number of blocks is the number of non-blank lines; the empty text
    gives no block. *)
Theorem C5_blank_lines_skipped :
  (forall blocks line, blank line = true -> loop_body blocks line = blocks) /\
  (forall md_text,
     length (_markdown_to_sdk_blocks md_text)
     = length (filter (fun line => negb (blank line)) (split nl md_text))) /\
  _markdown_to_sdk_blocks [] = [].
Proof.
  split; [|split; [|reflexivity]].
  - intros blocks line H. rewrite loop_body_spec. unfold spec_line.
    rewrite H. apply app_nil_r.
  - intros md_text. rewrite parse_lines.
    induction (split nl md_text) as [|l ls IH]; [reflexivity|].
    simpl. rewrite length_app, IH. unfold spec_line.
    destruct (blank l); reflexivity.
Qed.

Lemma C5_blank_lines_skipped_witness :
  blank (lit "   ") = true /\
  loop_body [block_of Paragraph (lit "a")] (lit "   ")
  = [block_of Paragraph (lit "a")].
Proof.
  split; [reflexivity|].
  apply (proj1 C5_blank_lines_skipped). reflexivity.
Defined.

(** C6. Writing the parser's blocks back as text (each block's text
    behind its marker, "---" for a divider, lines joined by newlines) and
    parsing that text gives the same blocks again. *)
Theorem C6_reparse_stable (md_text : str) :
  _markdown_to_sdk_blocks (reconstruct (_markdown_to_sdk_blocks md_text))
  = _markdown_to_sdk_blocks md_text.
Proof.
  unfold reconstruct. rewrite parse_join. apply flat_map_back.
  apply parse_blocks_from_lines. intros t Ht Hne Hnl.
  apply reparse_spec_classify; assumption.
Qed.

(** C9. Every block the parser builds satisfies the block invariant: a
    divider carries no text, a paragraph or heading carries a text that
    is not blank. *)
Theorem C9_block_invariant (md_text : str) :
  Forall block_invariant (_markdown_to_sdk_blocks md_text).
Proof.
  apply parse_blocks_from_lines. intros t Ht Hne _.
  apply spec_classify_invariant; assumption.
Qed.

(** C10. Lines are stripped on both sides before they are classified:
    whitespace added before or after any line changes nothing, and the
    indented line "   # Title" is the Heading1 "Title". *)
Theorem C10_padding_invariance :
  (forall lines' lines,
     Forall2 padded lines' lines ->
     _markdown_to_sdk_blocks (join nl lines')
     = _markdown_to_sdk_blocks (join nl lines)) /\
  _markdown_to_sdk_blocks (lit "   # Title") = [block_of Heading1 (lit "Title")].
Proof.
  split; [|reflexivity].
  intros lines' lines H. rewrite !parse_join.
  induction H as [|l' l ls' ls (w1 & w2 & H1 & H2 & ->) _ IH]; [reflexivity|].
  simpl. rewrite parse_pad by assumption. rewrite IH. reflexivity.
Qed.

Lemma C10_padding_invariance_witness :
  _markdown_to_sdk_blocks
    (join nl [lit "  # Title " ; [9%N] ++ lit "text"])
  = _markdown_to_sdk_blocks (join nl [lit "# Title"; lit "text"]).
Proof.
  apply (proj1 C10_padding_invariance).
  repeat constructor.
  - exists (lit "  "), (lit " "). repeat split; reflexivity.
  - exists [9%N], []. repeat split; reflexivity.
Defined.

(** ** Batches *)

Section BatchTheory.

Context {A : Type}.
Variable batch_sz : nat.
Hypothesis batch_sz_pos : 1 <= batch_sz.

Lemma range_from_In fuel start stop i :
  In i (range_from fuel start stop batch_sz) -> i < stop.
Proof.
  revert start. induction fuel as [|fuel IH]; intros start; simpl; [tauto|].
  destruct (Nat.ltb_spec start stop) as [Hlt|_]; simpl; [|tauto].
  intros [<-|H]; [exact Hlt|eauto].
Qed.

(** With enough fuel the slices from [start] on cover the rest of the
    list. *)
Lemma concat_slices (l : list A) fuel start :
  length l - start <= fuel ->
  concat (map (fun i => slice l i (i + batch_sz))
              (range_from fuel start (length l) batch_sz))
  = skipn start l.
Proof.
  revert start. induction fuel as [|fuel IH]; intros start Hf; simpl.
  - symmetry. apply skipn_all2. lia.
  - destruct (Nat.ltb_spec start (length l)) as [Hlt|Hge]; simpl.
    + rewrite IH by lia. unfold slice.
      replace (start + batch_sz - start) with batch_sz by lia.
      rewrite Nat.add_comm, <- skipn_skipn. apply firstn_skipn.
    + symmetry. apply skipn_all2. exact Hge.
Qed.

Lemma slice_length (l : list A) i :
  i < length l ->
  1 <= length (slice l i (i + batch_sz)) <= batch_sz.
Proof.
  intros Hi. unfold slice. rewrite length_firstn, length_skipn. lia.
Qed.

Lemma slice_full (l : list A) i :
  i + batch_sz <= length l -> length (slice l i (i + batch_sz)) = batch_sz.
Proof.
  intros Hi. unfold slice. rewrite length_firstn, length_skipn. lia.
Qed.

(** The indices the loop visits are the multiples of the batch size. *)
Lemma range_from_multiples fuel k stop :
  range_from fuel (k * batch_sz) stop batch_sz
  = map (fun j => j * batch_sz)
        (seq k (length (range_from fuel (k * batch_sz) stop batch_sz))).
Proof.
  revert k. induction fuel as [|fuel IH]; intros k; simpl; [reflexivity|].
  destruct (k * batch_sz <? stop); simpl; [|reflexivity].
  f_equal. replace (k * batch_sz + batch_sz) with (S k * batch_sz) by lia.
  apply IH.
Qed.

Lemma range_multiples stop :
  range 0 stop batch_sz
  = map (fun j => j * batch_sz) (seq 0 (length (range 0 stop batch_sz))).
Proof. unfold range. apply (range_from_multiples (stop - 0) 0 stop). Qed.

Lemma batches_length (l : list A) :
  length (batches batch_sz l) = length (range 0 (length l) batch_sz).
Proof. unfold batches. apply length_map. Qed.

Lemma batches_nth (l : list A) k :
  k < length (batches batch_sz l) ->
  nth k (batches batch_sz l) []
  = slice l (k * batch_sz) (k * batch_sz + batch_sz)
  /\ k * batch_sz < length l.
Proof.
  intros Hk. rewrite batches_length in Hk. unfold batches.
  assert (Hin : In (k * batch_sz) (range 0 (length l) batch_sz)).
  { rewrite range_multiples. apply in_map_iff. exists k. split; [reflexivity|].
    apply in_seq. lia. }
  split; [|exact (range_from_In _ _ _ _ Hin)].
  rewrite range_multiples, map_map.
  rewrite (nth_indep _ [] (slice l (0 * batch_sz) (0 * batch_sz + batch_sz))).
  2:{ rewrite length_map, length_seq. exact Hk. }
  rewrite (map_nth (fun j => slice l (j * batch_sz) (j * batch_sz + batch_sz))).
  rewrite seq_nth by exact Hk. reflexivity.
Qed.

Lemma batches_concat (l : list A) : concat (batches batch_sz l) = l.
Proof.
  unfold batches, range. rewrite concat_slices by lia. reflexivity.
Qed.

Lemma batches_sizes (l : list A) :
  Forall (fun b => b <> [] /\ length b <= batch_sz) (batches batch_sz l).
Proof.
  unfold batches, range. apply Forall_map, Forall_forall. intros i Hi.
  apply range_from_In in Hi. apply slice_length in Hi.
  split; [|lia]. intros E. rewrite E in Hi. simpl in Hi. lia.
Qed.

(** Every batch but the last is full. *)
Lemma batches_full (l : list A) k :
  S k < length (batches batch_sz l) ->
  length (nth k (batches batch_sz l) []) = batch_sz.
Proof.
  intros Hk.
  destruct (batches_nth l (S k) Hk) as [_ Hlt].
  destruct (batches_nth l k) as [-> _]; [lia|].
  apply slice_full. simpl in Hlt. lia.
Qed.

End BatchTheory.

(** ** The batch writer *)

Section WriteLoop.

Variables (R : Remote) (self : FeishuDocManager) (c : Client).
Variables (doc_id : option str) (blocks : list Block).
Hypothesis self_client : client self = Some c.

Lemma for_each_cons {A} (x : A) l body s :
  for_each (x :: l) body s
  = match body x s with
    | (Ret _, s') => for_each l body s'
    | (Raise e, s') => (Raise e, s')
    end.
Proof. reflexivity. Qed.

Lemma write_batch_answered i s resp :
  document_block_children_create R (length (trace s)) c
    (mkChildrenRequest doc_id doc_id (slice blocks i (i + batch_size)) (-1))
  = Ret resp ->
  write_batch R self doc_id blocks i s
  = (Ret PyNone,
     mkState (log s ++ failure_record (i / batch_size) (Ret resp))
             (trace s ++ [CallBlockChildrenCreate c
                (mkChildrenRequest doc_id doc_id
                   (slice blocks i (i + batch_size)) (-1))])).
Proof.
  intros H. unfold write_batch, get_client, bind, remote, ret.
  rewrite self_client, H. unfold failure_record.
  destruct (success resp); cbn [negb]; [rewrite app_nil_r|]; reflexivity.
Qed.

(** The loop over any list of start indices, as long as every call is
    answered: one call per index, one record per refused batch. *)
Lemma write_loop (l : list nat) : forall s,
  Forall (fun ni =>
            exists resp,
              document_block_children_create R (fst ni) c
                (mkChildrenRequest doc_id doc_id
                   (slice blocks (snd ni) (snd ni + batch_size)) (-1))
              = Ret resp)
         (combine (seq (length (trace s)) (length l)) l) ->
  for_each l (write_batch R self doc_id blocks) s
  = (Ret PyNone,
     mkState
       (log s ++
        flat_map (fun ni =>
                    failure_record (snd ni / batch_size)
                      (document_block_children_create R (fst ni) c
                         (mkChildrenRequest doc_id doc_id
                            (slice blocks (snd ni) (snd ni + batch_size)) (-1))))
                 (combine (seq (length (trace s)) (length l)) l))
       (trace s ++
        map (fun i => CallBlockChildrenCreate c
                        (mkChildrenRequest doc_id doc_id
                           (slice blocks i (i + batch_size)) (-1))) l)).
Proof.
  induction l as [|i l IH]; intros s H.
  - simpl. unfold ret. rewrite !app_nil_r. destruct s; reflexivity.
  - cbn [length seq combine] in H. inversion H as [|? ? [resp Hresp] Hrest]; subst.
    cbn [fst snd] in Hresp.
    rewrite for_each_cons, (write_batch_answered i s resp Hresp).
    cbn [length seq combine flat_map fst snd map].
    rewrite IH; cbn [log trace]; rewrite length_app, Nat.add_1_r.
    + rewrite Hresp, <- !app_assoc. reflexivity.
    + exact Hrest.
Qed.

End WriteLoop.

Lemma combine_seq_map {B} (f : nat -> B) m : forall a b,
  combine (seq a m) (map f (seq b m))
  = map (fun j => (a + j, f (b + j))) (seq 0 m).
Proof.
  induction m as [|m IH]; intros a b; [reflexivity|].
  cbn [seq map combine]. rewrite !Nat.add_0_r. f_equal.
  rewrite IH, <- seq_shift, map_map. apply map_ext. intros j.
  f_equal; [lia|f_equal; lia].
Qed.

Lemma batch_requests_length doc_id blocks :
  length (batch_requests doc_id blocks)
  = length (range 0 (length blocks) batch_size).
Proof. unfold batch_requests, batches. rewrite !length_map. reflexivity. Qed.

Lemma batch_requests_nth doc_id blocks k d :
  k < length (batch_requests doc_id blocks) ->
  nth k (batch_requests doc_id blocks) d
  = mkChildrenRequest doc_id doc_id
      (slice blocks (k * batch_size) (k * batch_size + batch_size)) (-1).
Proof.
  intros Hk. pose proof Hk as Hk'. unfold batch_requests in Hk' |- *.
  rewrite length_map in Hk'.
  rewrite (nth_indep _ d (mkChildrenRequest doc_id doc_id [] (-1)))
    by (rewrite length_map; exact Hk').
  rewrite (map_nth (fun b => mkChildrenRequest doc_id doc_id b (-1))).
  assert (Hpos : 1 <= batch_size) by (unfold batch_size; lia).
  destruct (batches_nth batch_size Hpos blocks k Hk') as [-> _]. reflexivity.
Qed.

Lemma batch_requests_multiples doc_id blocks :
  batch_requests doc_id blocks
  = map (fun j => mkChildrenRequest doc_id doc_id
                    (slice blocks (j * batch_size) (j * batch_size + batch_size)) (-1))
        (seq 0 (length (batch_requests doc_id blocks))).
Proof.
  assert (Hpos : 1 <= batch_size) by (unfold batch_size; lia).
  rewrite batch_requests_length. unfold batch_requests, batches.
  rewrite (range_multiples batch_size Hpos (length blocks)) at 1.
  rewrite !map_map. reflexivity.
Qed.

(** What [_batch_write_blocks] does when every call is answered. *)
Lemma batch_write_answered R self c doc_id blocks s :
  client self = Some c ->
  (forall k, k < length (batch_requests doc_id blocks) ->
     exists resp,
       document_block_children_create R (length (trace s) + k) c
         (nth k (batch_requests doc_id blocks)
              (mkChildrenRequest None None [] 0)) = Ret resp) ->
  _batch_write_blocks R self doc_id blocks s
  = (Ret PyNone,
     mkState
       (log s ++
        flat_map (fun k =>
                    failure_record k
                      (document_block_children_create R (length (trace s) + k) c
                         (nth k (batch_requests doc_id blocks)
                              (mkChildrenRequest None None [] 0))))
                 (seq 0 (length (batch_requests doc_id blocks))))
       (trace s ++ map (CallBlockChildrenCreate c) (batch_requests doc_id blocks))).
Proof.
  intros Hc Hans.
  assert (Hpos : 1 <= batch_size) by (unfold batch_size; lia).
  unfold _batch_write_blocks.
  set (m := length (batch_requests doc_id blocks)) in *.
  assert (Hm : length (range 0 (length blocks) batch_size) = m).
  { symmetry. apply batch_requests_length. }
  rewrite (range_multiples batch_size Hpos (length blocks)), Hm.
  rewrite (write_loop R self c doc_id blocks Hc).
  - rewrite length_map, length_seq, combine_seq_map.
    f_equal. f_equal.
    + f_equal. rewrite flat_map_concat_map, map_map, <- flat_map_concat_map.
      rewrite !flat_map_concat_map. f_equal. apply map_ext_in.
      intros k Hk. apply in_seq in Hk. cbn [fst snd].
      rewrite (batch_requests_nth doc_id blocks k _) by (fold m; lia).
      rewrite Nat.div_mul by (unfold batch_size; lia).
      rewrite Nat.add_0_l. reflexivity.
    + f_equal. rewrite (batch_requests_multiples doc_id blocks) at 1.
      fold m. rewrite !map_map. apply map_ext. intros k. reflexivity.
  - rewrite length_map, length_seq, combine_seq_map.
    apply Forall_map, Forall_forall. intros k Hk. apply in_seq in Hk.
    cbn [fst snd]. destruct (Hans k) as [resp Hresp]; [lia|].
    rewrite (batch_requests_nth doc_id blocks k _) in Hresp by (fold m; lia).
    exists resp. rewrite Nat.add_0_l. exact Hresp.
Qed.

(** C2. For every block sequence, and for every batch size of at least 1,
    the batches partition the sequence: concatenated in order they give
    the sequence back, no batch is empty, none has more than the batch
    size, and only the last may have fewer.  The uploader's own
    partition is the one of size 50: when every append call is answered,
    the requests [_batch_write_blocks] sends carry, in order, exactly
    these batches, so that their blocks concatenated are the sequence,
    no request is empty, none has more than 50 blocks and all but the
    last have 50. *)
Theorem C2_batches_partition R self c doc_id (blocks : list Block) s
    (max_batch_size : nat) :
  1 <= max_batch_size ->
  client self = Some c ->
  (forall k, k < length (batch_requests doc_id blocks) ->
     exists resp,
       document_block_children_create R (length (trace s) + k) c
         (nth k (batch_requests doc_id blocks)
              (mkChildrenRequest None None [] 0)) = Ret resp) ->
  (concat (batches max_batch_size blocks) = blocks /\
   Forall (fun b => b <> [] /\ length b <= max_batch_size)
          (batches max_batch_size blocks) /\
   (forall k, S k < length (batches max_batch_size blocks) ->
              length (nth k (batches max_batch_size blocks) []) = max_batch_size))
  /\
  exists s' sent,
    _batch_write_blocks R self doc_id blocks s = (Ret PyNone, s') /\
    trace s' = trace s ++ map (CallBlockChildrenCreate c) sent /\
    map children sent = batches 50 blocks /\
    concat (map children sent) = blocks /\
    Forall (fun r => children r <> [] /\ length (children r) <= 50) sent /\
    (forall k, S k < length sent ->
       length (children (nth k sent (mkChildrenRequest None None [] 0))) = 50).
Proof.
  intros H Hc Hans. split.
  - repeat split.
    + apply batches_concat. exact H.
    + apply batches_sizes. exact H.
    + intros k. apply batches_full. exact H.
  - assert (H50 : 1 <= 50) by lia.
    assert (Hch : map children (batch_requests doc_id blocks) = batches 50 blocks).
    { unfold batch_requests. rewrite map_map. apply map_id. }
    eexists _, (batch_requests doc_id blocks).
    split; [exact (batch_write_answered R self c doc_id blocks s Hc Hans)|].
    split; [reflexivity|]. split; [exact Hch|]. split; [|split].
    + rewrite Hch. apply batches_concat. exact H50.
    + pose proof (batches_sizes 50 H50 blocks) as Hs.
      rewrite <- Hch in Hs. apply Forall_map in Hs. exact Hs.
    + intros k Hk.
      change (@nil Block) with (children (mkChildrenRequest None None [] 0)).
      rewrite <- (map_nth children), Hch.
      apply (batches_full 50 H50). rewrite <- Hch, length_map. exact Hk.
Qed.

Lemma C2_batches_partition_witness :
  exists s' sent,
    _batch_write_blocks (sample_remote false (Raise Timeout)) sample_manager
      (Some (lit "doc1")) (repeat (block_of Paragraph (lit "x")) 101) empty_state
    = (Ret PyNone, s') /\
    trace s' = map (CallBlockChildrenCreate sample_client) sent /\
    map children sent
    = [repeat (block_of Paragraph (lit "x")) 50;
       repeat (block_of Paragraph (lit "x")) 50;
       [block_of Paragraph (lit "x")]] /\
    concat (map children sent) = repeat (block_of Paragraph (lit "x")) 101.
Proof.
  destruct (C2_batches_partition (sample_remote false (Raise Timeout))
              sample_manager sample_client (Some (lit "doc1"))
              (repeat (block_of Paragraph (lit "x")) 101) empty_state 50)
    as (_ & s' & sent & Hrun & Htrace & Hch & Hcat & _).
  - lia.
  - reflexivity.
  - intros k _. eexists. reflexivity.
  - exists s', sent. split; [exact Hrun|]. split; [exact Htrace|].
    split; [rewrite Hch; reflexivity|exact Hcat].
Defined.

(** C3 (as amended). When every batch call is answered, a refusal does
    not stop the loop: [_batch_write_blocks] sends one request per batch,
    in batch order, writes one error record per refused batch, in batch
    order and with the batch's number counted from 1, and returns [None]. *)
Theorem C3_continue_and_log R self c doc_id blocks s :
  client self = Some c ->
  (forall k, k < length (batch_requests doc_id blocks) ->
     exists resp,
       document_block_children_create R (length (trace s) + k) c
         (nth k (batch_requests doc_id blocks)
              (mkChildrenRequest None None [] 0)) = Ret resp) ->
  _batch_write_blocks R self doc_id blocks s
  = (Ret PyNone,
     mkState
       (log s ++
        flat_map (fun k =>
                    failure_record k
                      (document_block_children_create R (length (trace s) + k) c
                         (nth k (batch_requests doc_id blocks)
                              (mkChildrenRequest None None [] 0))))
                 (seq 0 (length (batch_requests doc_id blocks))))
       (trace s ++ map (CallBlockChildrenCreate c) (batch_requests doc_id blocks))).
Proof. apply batch_write_answered. Qed.

Lemma C3_continue_and_log_witness :
  _batch_write_blocks (sample_remote false (Raise Timeout)) sample_manager
    (Some (lit "doc1")) (repeat (block_of Paragraph (lit "x")) 101) empty_state
  = (Ret PyNone,
     mkState
       [(ERROR, WriteBlockFailedMsg 1 1770001 []);
        (ERROR, WriteBlockFailedMsg 2 1770001 []);
        (ERROR, WriteBlockFailedMsg 3 1770001 [])]
       (map (CallBlockChildrenCreate sample_client)
            (batch_requests (Some (lit "doc1"))
               (repeat (block_of Paragraph (lit "x")) 101)))).
Proof.
  rewrite (C3_continue_and_log (sample_remote false (Raise Timeout))
             sample_manager sample_client (Some (lit "doc1"))
             (repeat (block_of Paragraph (lit "x")) 101) empty_state).
  - vm_compute. reflexivity.
  - reflexivity.
  - intros k _. eexists. reflexivity.
Defined.

(** C3, as stated, fails: the value [_batch_write_blocks] returns is
    [None] whether the batch was accepted or refused, so no outcome list
    can be read off it. *)
Lemma C3_counterexample :
  fst (_batch_write_blocks (sample_remote true (Raise Timeout)) sample_manager
         (Some (lit "doc1")) [block_of Paragraph (lit "x")] empty_state)
  = Ret PyNone /\
  fst (_batch_write_blocks (sample_remote false (Raise Timeout)) sample_manager
         (Some (lit "doc1")) [block_of Paragraph (lit "x")] empty_state)
  = Ret PyNone /\
  ~ (exists outcomes : NoneType -> list bool,
       forall append_ok,
         match fst (_batch_write_blocks (sample_remote append_ok (Raise Timeout))
                      sample_manager (Some (lit "doc1"))
                      [block_of Paragraph (lit "x")] empty_state) with
         | Ret v => outcomes v = [append_ok]
         | Raise _ => False
         end).
Proof.
  split; [reflexivity|]. split; [reflexivity|].
  intros [outcomes H].
  pose proof (H true) as Ht. pose proof (H false) as Hf.
  vm_compute in Ht, Hf. congruence.
Qed.

(** ** The notification and the pipeline *)

Section Pipeline.

Variable R : Remote.
Variable self : FeishuDocManager.

(** Every exception of the notification is handled inside it. *)
Lemma send_returns title doc_url s :
  exists s', _send_doc_link_to_feishu R self title doc_url s = (Ret PyNone, s').
Proof.
  unfold _send_doc_link_to_feishu, try_except.
  match goal with
  | |- context [match ?body s with _ => _ end] =>
      destruct (body s) as [[[]|e] s1]
  end.
  - eexists. reflexivity.
  - destruct e; eexists; reflexivity.
Qed.

Lemma notify_returns title doc_url s :
  exists s',
    (if truthy (bot_webhook self)
     then _send_doc_link_to_feishu R self title doc_url
     else logger WARNING WebhookNotConfiguredMsg) s = (Ret PyNone, s').
Proof.
  destruct (truthy (bot_webhook self)).
  - apply send_returns.
  - eexists. reflexivity.
Qed.

End Pipeline.

(** The outcome of the [try] block does not depend on the webhook. *)
Lemma try_block_fst_indep R post now self title content_md s :
  fst (create_daily_doc_try (with_notification R post now) self title content_md s)
  = fst (create_daily_doc_try R self title content_md s).
Proof.
  unfold create_daily_doc_try.
  change (_batch_write_blocks (with_notification R post now))
    with (_batch_write_blocks R).
  change (document_create (with_notification R post now))
    with (document_create R).
  unfold bind.
  destruct (get_client self s) as [[c|e] s1]; [|reflexivity].
  destruct (remote _ _ s1) as [[response|e] s2]; [|reflexivity].
  destruct (negb (create_success response)); [reflexivity|].
  destruct (get_document_id response s2) as [[doc_id|e] s3]; [|reflexivity].
  destruct (logger INFO _ s3) as [[?|e] s4]; [|reflexivity].
  destruct (_batch_write_blocks R self doc_id _ s4) as [[?|e] s5]; [|reflexivity].
  destruct (logger INFO ContentWrittenMsg s5) as [[?|e] s6]; [|reflexivity].
  destruct (notify_returns (with_notification R post now) self title
              (lit "https://feishu.cn/docx/" ++ format doc_id) s6) as [s7 ->].
  destruct (notify_returns R self title
              (lit "https://feishu.cn/docx/" ++ format doc_id) s6) as [s8 ->].
  reflexivity.
Qed.

Lemma pipeline_fst_indep R post now self title content_md s :
  fst (create_daily_doc (with_notification R post now) self title content_md s)
  = fst (create_daily_doc R self title content_md s).
Proof.
  unfold create_daily_doc.
  destruct (negb (client_truthy self) || negb (is_configured self));
    [reflexivity|].
  unfold try_except.
  pose proof (try_block_fst_indep R post now self title content_md s) as H.
  destruct (create_daily_doc_try (with_notification R post now) self title
              content_md s) as [[v|e] s1];
    destruct (create_daily_doc_try R self title content_md s) as [[v'|e'] s1'];
    simpl in H; try discriminate.
  - exact H.
  - reflexivity.
Qed.

Lemma pipeline_returns R self title content_md s :
  exists v s', create_daily_doc R self title content_md s = (Ret v, s').
Proof.
  unfold create_daily_doc.
  destruct (negb (client_truthy self) || negb (is_configured self)).
  - eexists _, _. reflexivity.
  - unfold try_except.
    destruct (create_daily_doc_try R self title content_md s) as [[v|e] s1];
      eexists _, _; reflexivity.
Qed.

(** C4. A run that returned a document URL returns the same URL however
    the notification goes: whatever the webhook call does (timeout,
    connection error, any other exception, any status code, any body),
    the notification itself returns normally, and the pipeline's result
    is unchanged. *)
Theorem C4_notification_never_escalates :
  (forall R self title content_md s doc_url post now,
     fst (create_daily_doc R self title content_md s) = Ret (Some doc_url) ->
     fst (create_daily_doc (with_notification R post now) self title content_md s)
     = Ret (Some doc_url)) /\
  (forall R self title doc_url s,
     fst (_send_doc_link_to_feishu R self title doc_url s) = Ret PyNone).
Proof.
  split.
  - intros R self title content_md s doc_url post now H.
    rewrite pipeline_fst_indep. exact H.
  - intros R self title doc_url s.
    destruct (send_returns R self title doc_url s) as [s' ->]. reflexivity.
Qed.

Lemma C4_notification_never_escalates_witness :
  fst (create_daily_doc (sample_remote true (Ret (mkResponse 200 (Some ok_body))))
         sample_manager (lit "daily") (lit "# Daily") empty_state)
  = Ret (Some (lit "https://feishu.cn/docx/doc1")) /\
  fst (create_daily_doc
         (with_notification
            (sample_remote true (Ret (mkResponse 200 (Some ok_body))))
            (fun _ _ => Raise Timeout) [])
         sample_manager (lit "daily") (lit "# Daily") empty_state)
  = Ret (Some (lit "https://feishu.cn/docx/doc1")).
Proof.
  split; [reflexivity|].
  apply (proj1 C4_notification_never_escalates). reflexivity.
Defined.

(** C7. [create_daily_doc] always returns: a document URL or [None],
    never an exception; and an exception raised inside its [try] block
    comes out as [None], with one error record for it. *)
Theorem C7_no_exception_escapes :
  (forall R self title content_md s,
     exists v s', create_daily_doc R self title content_md s = (Ret v, s')) /\
  (forall R self title content_md s e s1,
     client_truthy self = true -> is_configured self = true ->
     create_daily_doc_try R self title content_md s = (Raise e, s1) ->
     create_daily_doc R self title content_md s
     = (Ret None, mkState (log s1 ++ [(ERROR, PipelineExceptionMsg e)]) (trace s1))).
Proof.
  split.
  - apply pipeline_returns.
  - intros R self title content_md s e s1 Hc Hi Ht.
    unfold create_daily_doc. rewrite Hc, Hi. cbn [negb orb].
    unfold try_except. rewrite Ht. reflexivity.
Qed.

Lemma C7_no_exception_escapes_witness :
  create_daily_doc (broken_remote ConnectionError) sample_manager
    (lit "daily") (lit "# Daily") empty_state
  = (Ret None,
     mkState [(ERROR, PipelineExceptionMsg ConnectionError)]
             [CallDocumentCreate sample_client
                (mkCreateDocumentRequest (Some (lit "fldr")) (lit "daily"))]).
Proof.
  apply (proj2 C7_no_exception_escapes
           (broken_remote ConnectionError) sample_manager (lit "daily")
           (lit "# Daily") empty_state ConnectionError
           (mkState [] [CallDocumentCreate sample_client
                          (mkCreateDocumentRequest (Some (lit "fldr"))
                                                   (lit "daily"))]));
    reflexivity.
Defined.

(** After [__init__] the client exists exactly when the configuration is
    complete, and nothing was sent. *)
Lemma init_client config s :
  exists self s',
    __init__ config s = (Ret self, s') /\
    client_truthy self = is_configured self /\
    app_id self = feishu_app_id config /\
    app_secret self = feishu_app_secret config /\
    folder_token self = feishu_folder_token config /\
    bot_webhook self = feishu_bot_webhook config /\
    trace s' = trace s.
Proof.
  unfold __init__.
  destruct (is_configured (mkManager _ _ _ _ None)) eqn:E.
  - eexists _, _. split; [reflexivity|]. cbn.
    unfold is_configured in *. cbn in *. rewrite E. repeat split.
  - eexists _, _. split; [reflexivity|]. cbn.
    unfold is_configured in *. cbn in *. rewrite E. repeat split.
Qed.

Lemma truthy_present v : truthy v = true <-> present v.
Proof.
  unfold truthy, present. split.
  - destruct v as [[|c s]|]; try discriminate.
    intros _. exists (c :: s). split; [reflexivity|discriminate].
  - intros (s & -> & Hs). destruct s; [contradiction|reflexivity].
Qed.

(** C8. [is_configured] holds exactly when the application id, the
    application secret and the folder token are all present (the webhook
    plays no part); when it does not hold, [create_daily_doc] makes no
    remote call, writes the error record and returns [None]. *)
Theorem C8_configuration_gate :
  (forall self,
     is_configured self = true
     <-> present (app_id self) /\ present (app_secret self)
         /\ present (folder_token self)) /\
  (forall R self title content_md s,
     is_configured self = false ->
     create_daily_doc R self title content_md s
     = (Ret None, mkState (log s ++ [(ERROR, SdkNotInitialisedMsg)]) (trace s))).
Proof.
  split.
  - intros self. rewrite <- !truthy_present. unfold is_configured, py_and.
    destruct (truthy (app_id self)) eqn:E1; cbv iota.
    + destruct (truthy (app_secret self)) eqn:E2; cbv iota.
      * tauto.
      * rewrite E2. split; [intros H|intros (_ & H & _)]; discriminate H.
    + rewrite E1. cbv iota. rewrite E1.
      split; [intros H|intros (H & _)]; discriminate H.
  - intros R self title content_md s H. unfold create_daily_doc.
    rewrite H. cbn [negb]. rewrite orb_true_r. reflexivity.
Qed.

Lemma C8_configuration_gate_witness :
  create_daily_doc (sample_remote true (Raise Timeout))
    (mkManager (Some (lit "cli_app")) (Some []) (Some (lit "fldr"))
               (Some (lit "https://open.feishu.cn/hook")) (Some sample_client))
    (lit "daily") (lit "# Daily") empty_state
  = (Ret None, mkState [(ERROR, SdkNotInitialisedMsg)] []).
Proof.
  apply (proj2 C8_configuration_gate). reflexivity.
Defined.

(** ** The specification's end-to-end scenario *)

Example end_to_end_blocks :
  _markdown_to_sdk_blocks
    (lit "# Daily" ++ nl :: lit "line one" ++ nl :: lit "---" ++ nl
       :: lit "## Section")
  = [block_of Heading1 (lit "Daily"); block_of Paragraph (lit "line one");
     block_of DividerKind []; block_of Heading2 (lit "Section")].
Proof. reflexivity. Qed.

Example end_to_end_batches :
  batches 2 [block_of Heading1 (lit "Daily"); block_of Paragraph (lit "line one");
             block_of DividerKind []; block_of Heading2 (lit "Section")]
  = [[block_of Heading1 (lit "Daily"); block_of Paragraph (lit "line one")];
     [block_of DividerKind []; block_of Heading2 (lit "Section")]].
Proof. reflexivity. Qed.

(** A refused batch in a full run: the URL is still returned, the refusal
    is only in the log. *)
Example refused_batch_run :
  create_daily_doc (sample_remote false (Ret (mkResponse 200 (Some ok_body))))
    sample_manager (lit "daily") (lit "# Daily") empty_state
  = (Ret (Some (lit "https://feishu.cn/docx/doc1")),
     mkState
       [(INFO, DocCreatedMsg (lit "https://feishu.cn/docx/doc1"));
        (ERROR, WriteBlockFailedMsg 1 1770001 []);
        (INFO, ContentWrittenMsg);
        (INFO, PushOkMsg)]
       [CallDocumentCreate sample_client
          (mkCreateDocumentRequest (Some (lit "fldr")) (lit "daily"));
        CallBlockChildrenCreate sample_client
          (mkChildrenRequest (Some (lit "doc1")) (Some (lit "doc1"))
             [block_of Heading1 (lit "Daily")] (-1));
        CallPost (mkPostRequest (Some (lit "https://open.feishu.cn/hook"))
                    (mkMsgBody (lit "daily") (lit "https://feishu.cn/docx/doc1")
                               (lit "2026-03-04 18:00:00")) 10)]).
Proof. reflexivity. Qed.

(* ================================================================== *)
(** * Further properties *)

(** ** The parser *)

(** X1. Parsing distributes over the newline: the blocks of two texts
    joined by a newline are the blocks of the first followed by the
    blocks of the second. *)
Theorem X1_parse_concat (a b : str) :
  _markdown_to_sdk_blocks (a ++ nl :: b)
  = _markdown_to_sdk_blocks a ++ _markdown_to_sdk_blocks b.
Proof. rewrite !parse_lines, split_app_nl. apply flat_map_app. Qed.

(** X2. Every block the parser builds has a block type among 2, 3, 4, 5
    and 22 and exactly the one payload field of that type set. *)
Theorem X2_one_payload (md_text : str) :
  Forall (fun b => exists k t, b = block_of k t)
         (_markdown_to_sdk_blocks md_text).
Proof.
  apply parse_blocks_from_lines. intros t _ _ _. unfold spec_classify.
  repeat match goal with
         | |- context [if ?c then _ else _] => destruct c
         end; eexists _, _; reflexivity.
Qed.

Lemma hash_not_dashes t p :
  startswith t (35%N :: p) = true -> startswith t (lit "---") = false.
Proof.
  destruct t as [|a t]; [discriminate|].
  cbn [startswith]. intros H. apply andb_true_iff in H as [Ha _].
  apply N.eqb_eq in Ha. subst a. reflexivity.
Qed.

Lemma block_line_spec_classify t :
  block_line (spec_classify t) = normalise_line t.
Proof.
  unfold spec_classify, normalise_line.
  destruct (startswith t (lit "### ")) eqn:E3.
  { rewrite block_line_block_of, (hash_not_dashes t _ E3).
    symmetry. exact (startswith_app t (lit "### ") E3). }
  destruct (startswith t (lit "## ")) eqn:E2.
  { rewrite block_line_block_of, (hash_not_dashes t _ E2).
    symmetry. exact (startswith_app t (lit "## ") E2). }
  destruct (startswith t (lit "# ")) eqn:E1.
  { rewrite block_line_block_of, (hash_not_dashes t _ E1).
    symmetry. exact (startswith_app t (lit "# ") E1). }
  destruct (startswith t (lit "---")); apply block_line_block_of.
Qed.

(** X3. The parser loses nothing but blank lines, the whitespace around
    a line and what follows the "---" of a divider line: writing its
    blocks back as text gives the stripped non-blank lines, in order,
    with every divider line reduced to "---". *)
Theorem X3_reconstruct_lines (md_text : str) :
  reconstruct (_markdown_to_sdk_blocks md_text)
  = join nl (map (fun line => normalise_line (strip line))
                 (filter (fun line => negb (blank line)) (split nl md_text))).
Proof.
  unfold reconstruct. f_equal. rewrite parse_lines.
  induction (split nl md_text) as [|l ls IH]; [reflexivity|].
  cbn [flat_map filter]. rewrite map_app, IH. unfold spec_line.
  destruct (blank l); cbn [negb map app]; [reflexivity|].
  rewrite block_line_spec_classify. reflexivity.
Qed.

(** X4. A heading needs one to three "#" and then a space: a line that
    starts with four "#" is a Paragraph holding the whole stripped line. *)
Theorem X4_four_hashes_paragraph (line : str) :
  ~ In nl line ->
  startswith (strip line) (lit "####") = true ->
  _markdown_to_sdk_blocks line = [block_of Paragraph (strip line)].
Proof.
  intros Hnl Hs. rewrite parse_lines, split_no_nl by exact Hnl.
  cbn [flat_map]. rewrite app_nil_r. unfold spec_line.
  destruct (blank line) eqn:E.
  - apply strip_nil_iff in E. rewrite E in Hs. discriminate.
  - f_equal. unfold spec_classify.
    change (lit "####") with [35; 35; 35; 35]%N in Hs.
    change (lit "### ") with [35; 35; 35; 32]%N.
    change (lit "## ") with [35; 35; 32]%N.
    change (lit "# ") with [35; 32]%N.
    change (lit "---") with [45; 45; 45]%N.
    destruct (strip line) as [|a [|b [|c [|d t]]]];
      cbn [startswith] in Hs; rewrite ?andb_false_r in Hs;
      try discriminate Hs.
    apply andb_true_iff in Hs as [Ha Hs]. apply andb_true_iff in Hs as [Hb Hs].
    apply andb_true_iff in Hs as [Hc Hs]. apply andb_true_iff in Hs as [Hd _].
    apply N.eqb_eq in Ha, Hb, Hc, Hd. subst a b c d. reflexivity.
Qed.

Lemma X4_four_hashes_paragraph_witness :
  _markdown_to_sdk_blocks (lit "  #### Deep ")
  = [block_of Paragraph (lit "#### Deep")].
Proof.
  apply (X4_four_hashes_paragraph (lit "  #### Deep ")).
  - vm_compute. intuition discriminate.
  - reflexivity.
Defined.

(** X5. Line ends written as carriage return plus newline give the same
    blocks as plain newlines. *)
Theorem X5_crlf_line_ends (lines : list str) :
  _markdown_to_sdk_blocks (join_crlf lines)
  = _markdown_to_sdk_blocks (join nl lines).
Proof.
  induction lines as [|l ls IH]; [reflexivity|].
  destruct ls as [|l' ls]; [reflexivity|].
  change (join_crlf (l :: l' :: ls))
    with (l ++ 13%N :: nl :: join_crlf (l' :: ls)).
  change (join nl (l :: l' :: ls)) with (l ++ nl :: join nl (l' :: ls)).
  change (l ++ 13%N :: nl :: join_crlf (l' :: ls))
    with (l ++ [13%N] ++ nl :: join_crlf (l' :: ls)).
  rewrite app_assoc, !parse_app_nl, IH.
  rewrite parse_snoc_space by reflexivity. reflexivity.
Qed.

(** ** Batches *)

Lemma range_from_length bs fuel start stop :
  1 <= bs -> stop - start <= fuel ->
  length (range_from fuel start stop bs) = (stop - start + bs - 1) / bs.
Proof.
  intros Hbs. revert start. induction fuel as [|fuel IH]; intros start Hf.
  - simpl. replace (stop - start + bs - 1) with (bs - 1) by lia.
    symmetry. apply Nat.div_small. lia.
  - simpl. destruct (Nat.ltb_spec start stop) as [Hlt|Hge].
    + simpl. rewrite IH by lia.
      destruct (Nat.le_gt_cases bs (stop - start)) as [Hle|Hgt].
      * replace (stop - start + bs - 1)
          with ((stop - (start + bs) + bs - 1) + 1 * bs) by lia.
        rewrite Nat.div_add by lia. lia.
      * replace (stop - (start + bs) + bs - 1) with (bs - 1) by lia.
        rewrite (Nat.div_small (bs - 1)) by lia.
        apply (Nat.div_unique _ _ _ (stop - start - 1)); lia.
    + replace (stop - start + bs - 1) with (bs - 1) by lia.
      symmetry. apply Nat.div_small. lia.
Qed.

(** The number of batches is the length over the size, rounded up. *)
Lemma batches_count {A} (blocks : list A) (max_batch_size : nat) :
  1 <= max_batch_size ->
  length (batches max_batch_size blocks)
  = (length blocks + max_batch_size - 1) / max_batch_size.
Proof.
  intros H. unfold batches, range. rewrite length_map.
  rewrite range_from_length by lia. f_equal. lia.
Qed.

(** The element at place [j] of batch [k] is the element at place
    [k * size + j] of the sequence. *)
Lemma batches_positions {A} (blocks : list A) (max_batch_size k j : nat) (d : A) :
  1 <= max_batch_size ->
  k < length (batches max_batch_size blocks) ->
  j < length (nth k (batches max_batch_size blocks) []) ->
  nth j (nth k (batches max_batch_size blocks) []) d
  = nth (k * max_batch_size + j) blocks d.
Proof.
  intros Hbs Hk Hj.
  destruct (batches_nth max_batch_size Hbs blocks k Hk) as [E _].
  rewrite E in Hj |- *. unfold slice in *.
  rewrite length_firstn in Hj.
  rewrite nth_firstn, nth_skipn.
  destruct (Nat.ltb_spec j (k * max_batch_size + max_batch_size - k * max_batch_size));
    [reflexivity|lia].
Qed.

(** ** The batch writer, when calls may raise *)

Section WriteLoopRaise.

Variables (R : Remote) (self : FeishuDocManager).
Variables (doc_id : option str) (blocks : list Block).

Lemma for_each_app {A} (l1 l2 : list A) body s :
  for_each (l1 ++ l2) body s
  = match for_each l1 body s with
    | (Ret _, s') => for_each l2 body s'
    | (Raise e, s') => (Raise e, s')
    end.
Proof.
  revert s. induction l1 as [|x l1 IH]; intros s; [reflexivity|].
  cbn [app]. rewrite !for_each_cons. destruct (body x s) as [[?|e] s1]; auto.
Qed.

Lemma write_batch_raises c i s e :
  client self = Some c ->
  document_block_children_create R (length (trace s)) c
    (mkChildrenRequest doc_id doc_id (slice blocks i (i + batch_size)) (-1))
  = Raise e ->
  write_batch R self doc_id blocks i s
  = (Raise e,
     mkState (log s)
             (trace s ++ [CallBlockChildrenCreate c
                (mkChildrenRequest doc_id doc_id
                   (slice blocks i (i + batch_size)) (-1))])).
Proof.
  intros Hc H. unfold write_batch, get_client, bind, remote, ret.
  rewrite Hc, H. reflexivity.
Qed.

Lemma write_batch_no_client i s :
  client self = None ->
  write_batch R self doc_id blocks i s = (Raise AttributeError, s).
Proof.
  intros Hc. unfold write_batch, get_client, bind, raise. rewrite Hc.
  reflexivity.
Qed.

(** A loop that returned was answered at every call. *)
Lemma loop_returned_answered c (l : list nat) : forall s v s',
  client self = Some c ->
  for_each l (write_batch R self doc_id blocks) s = (Ret v, s') ->
  Forall (fun ni =>
            exists resp,
              document_block_children_create R (fst ni) c
                (mkChildrenRequest doc_id doc_id
                   (slice blocks (snd ni) (snd ni + batch_size)) (-1))
              = Ret resp)
         (combine (seq (length (trace s)) (length l)) l).
Proof.
  induction l as [|i l IH]; intros s v s' Hc H; [constructor|].
  cbn [length seq combine]. rewrite for_each_cons in H.
  destruct (document_block_children_create R (length (trace s)) c
              (mkChildrenRequest doc_id doc_id
                 (slice blocks i (i + batch_size)) (-1))) as [resp|e] eqn:E.
  - rewrite (write_batch_answered R self c doc_id blocks Hc i s resp E) in H.
    constructor; [exists resp; exact E|].
    apply IH in H; [|exact Hc]. cbn [trace] in H.
    rewrite length_app, Nat.add_1_r in H. exact H.
  - rewrite (write_batch_raises c i s e Hc E) in H. discriminate.
Qed.

(** Whatever the answers, the calls made are a prefix of the calls for
    the given indices, in order. *)
Lemma loop_trace_prefix c (l : list nat) : forall s,
  client self = Some c ->
  exists n,
    trace (snd (for_each l (write_batch R self doc_id blocks) s))
    = trace s ++
      map (fun i => CallBlockChildrenCreate c
                      (mkChildrenRequest doc_id doc_id
                         (slice blocks i (i + batch_size)) (-1)))
          (firstn n l).
Proof.
  induction l as [|i l IH]; intros s Hc.
  - exists 0. simpl. symmetry. apply app_nil_r.
  - rewrite for_each_cons.
    destruct (document_block_children_create R (length (trace s)) c
                (mkChildrenRequest doc_id doc_id
                   (slice blocks i (i + batch_size)) (-1))) as [resp|e] eqn:E.
    + rewrite (write_batch_answered R self c doc_id blocks Hc i s resp E).
      destruct (IH (mkState (log s ++ failure_record (i / batch_size) (Ret resp))
                            (trace s ++ [CallBlockChildrenCreate c
                               (mkChildrenRequest doc_id doc_id
                                  (slice blocks i (i + batch_size)) (-1))]))
                   Hc) as [n Hn].
      exists (S n). rewrite Hn. cbn [trace firstn map].
      rewrite <- app_assoc. reflexivity.
    + rewrite (write_batch_raises c i s e Hc E). exists 1.
      cbn [snd trace firstn map]. destruct l; reflexivity.
Qed.

End WriteLoopRaise.

Lemma firstn_seq_le n : forall a m, n <= m -> firstn n (seq a m) = seq a n.
Proof.
  induction n as [|n IH]; intros a m H; [reflexivity|].
  destruct m as [|m]; [lia|]. cbn [seq firstn]. f_equal. apply IH. lia.
Qed.

(** A run of [_batch_write_blocks] that returned had every call answered. *)
Lemma batch_write_returned R self c doc_id blocks s v s' :
  client self = Some c ->
  _batch_write_blocks R self doc_id blocks s = (Ret v, s') ->
  forall k, k < length (batch_requests doc_id blocks) ->
    exists resp,
      document_block_children_create R (length (trace s) + k) c
        (nth k (batch_requests doc_id blocks) no_request) = Ret resp.
Proof.
  intros Hc H k Hk.
  assert (Hpos : 1 <= batch_size) by (unfold batch_size; lia).
  unfold _batch_write_blocks in H.
  rewrite (range_multiples batch_size Hpos (length blocks)) in H.
  rewrite <- batch_requests_length with (doc_id := doc_id) in H.
  apply (loop_returned_answered R self doc_id blocks c) in H; [|exact Hc].
  rewrite length_map, length_seq, combine_seq_map in H.
  rewrite Forall_map, Forall_forall in H.
  destruct (H k) as [resp Hresp]; [apply in_seq; lia|].
  cbn [fst snd] in Hresp. rewrite Nat.add_0_l in Hresp.
  exists resp. rewrite (batch_requests_nth doc_id blocks k _ Hk). exact Hresp.
Qed.

(** X8. An append call that raises ends the upload at once: with batches
    0 to [k-1] answered and the call for batch [k] raising, exactly the
    first [k+1] requests were sent, the refusals among the first [k] are
    logged, later batches are never sent, and the exception leaves
    [_batch_write_blocks]. *)
Theorem X8_batch_exception_aborts R self c doc_id blocks s k e :
  client self = Some c ->
  k < length (batch_requests doc_id blocks) ->
  (forall j, j < k ->
     exists resp,
       document_block_children_create R (length (trace s) + j) c
         (nth j (batch_requests doc_id blocks) no_request) = Ret resp) ->
  document_block_children_create R (length (trace s) + k) c
    (nth k (batch_requests doc_id blocks) no_request) = Raise e ->
  _batch_write_blocks R self doc_id blocks s
  = (Raise e,
     mkState
       (log s ++
        flat_map (fun j =>
                    failure_record j
                      (document_block_children_create R (length (trace s) + j) c
                         (nth j (batch_requests doc_id blocks) no_request)))
                 (seq 0 k))
       (trace s ++
        map (CallBlockChildrenCreate c)
            (firstn (S k) (batch_requests doc_id blocks)))).
Proof.
  intros Hc Hk Hans Hraise.
  assert (Hpos : 1 <= batch_size) by (unfold batch_size; lia).
  set (m := length (batch_requests doc_id blocks)) in *.
  set (f := fun j => j * batch_size).
  set (g := fun j => mkChildrenRequest doc_id doc_id
                       (slice blocks (j * batch_size) (j * batch_size + batch_size))
                       (-1)).
  assert (Hreqs : batch_requests doc_id blocks = map g (seq 0 m))
    by apply batch_requests_multiples.
  assert (Hfirst : firstn (S k) (batch_requests doc_id blocks)
                   = map g (seq 0 k) ++ [g k]).
  { rewrite Hreqs, firstn_map, firstn_seq_le by lia.
    rewrite seq_S, map_app. reflexivity. }
  assert (Hrange : range 0 (length blocks) batch_size
                   = map f (seq 0 k) ++ f k :: map f (seq (S k) (m - S k))).
  { rewrite (range_multiples batch_size Hpos (length blocks)).
    rewrite <- batch_requests_length with (doc_id := doc_id). fold m.
    replace m with (k + S (m - S k)) at 1 by lia.
    rewrite seq_app, map_app. reflexivity. }
  unfold _batch_write_blocks. rewrite Hrange, for_each_app.
  rewrite (write_loop R self c doc_id blocks Hc).
  2:{ rewrite length_map, length_seq, combine_seq_map.
      apply Forall_map, Forall_forall. intros j Hj. apply in_seq in Hj.
      cbn [fst snd]. destruct (Hans j) as [resp Hresp]; [lia|].
      rewrite (batch_requests_nth doc_id blocks j _) in Hresp by (fold m; lia).
      exists resp. rewrite Nat.add_0_l. exact Hresp. }
  rewrite length_map, length_seq, combine_seq_map.
  rewrite for_each_cons.
  rewrite (batch_requests_nth doc_id blocks k _ Hk) in Hraise.
  rewrite (write_batch_raises R self doc_id blocks c (f k) _ e Hc).
  2:{ cbn [trace]. rewrite length_app, !length_map, length_seq. exact Hraise. }
  cbn [log trace]. rewrite Hfirst, map_app, <- app_assoc, !map_map.
  f_equal. f_equal. f_equal.
  rewrite !flat_map_concat_map, map_map. f_equal. apply map_ext_in.
  intros j Hj. apply in_seq in Hj. cbn [fst snd].
  rewrite (batch_requests_nth doc_id blocks j _) by (fold m; lia).
  unfold f. rewrite Nat.div_mul by (unfold batch_size; lia).
  rewrite Nat.add_0_l. reflexivity.
Qed.

Lemma X8_batch_exception_aborts_witness :
  _batch_write_blocks
    (mkRemote (fun _ _ _ => Ret (created (lit "doc1")))
              (fun n _ _ => if n =? 1 then Raise ConnectionError
                            else Ret (mkChildrenResponse false 9 []))
              (fun _ _ => Raise Timeout) [])
    sample_manager (Some (lit "doc1"))
    (repeat (block_of Paragraph (lit "x")) 120) empty_state
  = (Raise ConnectionError,
     mkState [(ERROR, WriteBlockFailedMsg 1 9 [])]
             (map (CallBlockChildrenCreate sample_client)
                  (firstn 2 (batch_requests (Some (lit "doc1"))
                               (repeat (block_of Paragraph (lit "x")) 120))))).
Proof.
  rewrite (X8_batch_exception_aborts _ sample_manager sample_client
             (Some (lit "doc1")) (repeat (block_of Paragraph (lit "x")) 120)
             empty_state 1 ConnectionError).
  - reflexivity.
  - reflexivity.
  - vm_compute. lia.
  - intros j Hj. assert (j = 0) by lia. subst j. eexists. reflexivity.
  - reflexivity.
Defined.

Lemma loop_no_client R self doc_id blocks (l : list nat) s :
  client self = None ->
  trace (snd (for_each l (write_batch R self doc_id blocks) s)) = trace s.
Proof.
  intros Hc. destruct l as [|i l]; [reflexivity|].
  rewrite for_each_cons, write_batch_no_client by exact Hc. reflexivity.
Qed.

Lemma batch_write_trace_prefix R self doc_id blocks s :
  exists n,
    trace (snd (_batch_write_blocks R self doc_id blocks s))
    = trace s ++
      match client self with
      | Some c => map (CallBlockChildrenCreate c)
                      (firstn n (batch_requests doc_id blocks))
      | None => []
      end.
Proof.
  unfold _batch_write_blocks. destruct (client self) as [c|] eqn:Hc.
  - destruct (loop_trace_prefix R self doc_id blocks c
                (range 0 (length blocks) batch_size) s Hc) as [n Hn].
    exists n. rewrite Hn. f_equal.
    unfold batch_requests, batches. rewrite !firstn_map, !map_map. reflexivity.
  - exists 0. rewrite loop_no_client by exact Hc. symmetry. apply app_nil_r.
Qed.

(** X9. Whatever the remote side answers, the only calls
    [_batch_write_blocks] makes are append requests for the document,
    and they are a prefix of the batch requests, in batch order: nothing
    is sent twice, out of order, or for other blocks.  Without a client
    nothing is sent at all. *)
Theorem X9_only_batch_requests R self doc_id blocks s :
  exists n,
    trace (snd (_batch_write_blocks R self doc_id blocks s))
    = trace s ++
      match client self with
      | Some c => map (CallBlockChildrenCreate c)
                      (firstn n (batch_requests doc_id blocks))
      | None => []
      end.
Proof. apply batch_write_trace_prefix. Qed.

(** ** The notification *)

Lemma send_outcome R self title doc_url s :
  exists m,
    _send_doc_link_to_feishu R self title doc_url s
    = (Ret PyNone,
       mkState (log s ++ [m])
               (trace s ++ [CallPost (post_request_of R self title doc_url)]))
    /\ (m = (INFO, PushOkMsg)
        <-> accepted (requests_post R (length (trace s))
                        (post_request_of R self title doc_url))).
Proof.
  unfold _send_doc_link_to_feishu, post_request_of, accepted, try_except,
    bind, remote.
  destruct (requests_post R (length (trace s)) _) as [resp|e] eqn:Ep.
  - unfold raise_for_status.
    destruct ((400 <=? status_code resp) && (status_code resp <? 600))%Z eqn:Est.
    + eexists. split; [reflexivity|]. split; [discriminate|].
      intros (r & f & Hr & Hst & _). inversion Hr; subst. congruence.
    + unfold ret at 1. unfold response_json.
      destruct (body resp) as [j|] eqn:Eb.
      * unfold ret at 1. unfold result_get_code.
        destruct j as [| | | | |fields];
          try (eexists; split; [reflexivity|]; split; [discriminate|];
               intros (r & f & Hr & _ & Hb & _); inversion Hr; subst;
               congruence).
        unfold ret at 1.
        destruct (equals_zero (dict_get fields (lit "code"))) eqn:Ez.
        -- eexists. split; [reflexivity|]. split; [|reflexivity].
           intros _. exists resp, fields. auto.
        -- eexists. split; [reflexivity|]. split; [discriminate|].
           intros (r & f & Hr & _ & Hb & Hz). inversion Hr; subst.
           rewrite Eb in Hb. inversion Hb; subst. congruence.
      * eexists. split; [reflexivity|]. split; [discriminate|].
        intros (r & f & Hr & _ & Hb & _). inversion Hr; subst. congruence.
  - destruct e; eexists; (split; [reflexivity|]); (split; [discriminate|]);
      intros (r & f & Hr & _); discriminate Hr.
Qed.

(** X10. [_send_doc_link_to_feishu] sends exactly one POST (to the
    configured webhook, with the title, the link and the time, timeout
    10) and writes exactly one log record; the record is the success
    message exactly when the answer has no 4xx or 5xx status and a JSON
    object body whose "code" equals 0. *)
Theorem X10_notification_outcome R self title doc_url s :
  exists m,
    _send_doc_link_to_feishu R self title doc_url s
    = (Ret PyNone,
       mkState (log s ++ [m])
               (trace s ++ [CallPost (post_request_of R self title doc_url)]))
    /\ (m = (INFO, PushOkMsg)
        <-> accepted (requests_post R (length (trace s))
                        (post_request_of R self title doc_url))).
Proof. apply send_outcome. Qed.

(** ** The pipeline, stage by stage *)

(** The [try] block of [create_daily_doc] written out by stages. *)
Lemma try_block_stages R self c title content_md s :
  client self = Some c ->
  create_daily_doc_try R self title content_md s
  = let s1 := mkState (log s)
                      (trace s ++ [CallDocumentCreate c
                                     (create_request_of self title)]) in
    match document_create R (length (trace s)) c (create_request_of self title) with
    | Raise e => (Raise e, s1)
    | Ret resp =>
        if negb (create_success resp) then
          (Ret None,
           mkState (log s1 ++ [(ERROR, CreateDocFailedMsg (create_code resp)
                                                          (create_msg resp))])
                   (trace s1))
        else
          match data resp with
          | None => (Raise AttributeError, s1)
          | Some b =>
              match document b with
              | None => (Raise AttributeError, s1)
              | Some doc =>
                  let doc_url := doc_url_of (document_id doc) in
                  let s2 := mkState (log s1 ++ [(INFO, DocCreatedMsg doc_url)])
                                    (trace s1) in
                  match _batch_write_blocks R self (document_id doc)
                          (_markdown_to_sdk_blocks content_md) s2 with
                  | (Raise e, s3) => (Raise e, s3)
                  | (Ret _, s3) =>
                      match (if truthy (bot_webhook self)
                             then _send_doc_link_to_feishu R self title doc_url
                             else logger WARNING WebhookNotConfiguredMsg)
                              (mkState (log s3 ++ [(INFO, ContentWrittenMsg)])
                                       (trace s3)) with
                      | (Ret _, s4) => (Ret (Some doc_url), s4)
                      | (Raise e, s4) => (Raise e, s4)
                      end
                  end
              end
          end
    end.
Proof.
  intros Hc. unfold create_daily_doc_try, create_request_of, doc_url_of.
  unfold bind at 1. unfold get_client. rewrite Hc. unfold ret at 1.
  unfold bind at 1. unfold remote at 1. cbv zeta.
  destruct (document_create R (length (trace s)) c _) as [resp|e];
    [|reflexivity].
  destruct (negb (create_success resp)); [reflexivity|].
  unfold bind at 1. unfold get_document_id.
  destruct (data resp) as [b|]; [|reflexivity].
  destruct (document b) as [doc|]; [|reflexivity].
  unfold ret at 1. unfold bind at 1. unfold logger at 1. cbn [log trace].
  unfold bind at 1.
  destruct (_batch_write_blocks R self (document_id doc) _ _) as [[v|e] s3];
    [|reflexivity].
  unfold bind at 1. unfold logger at 1.
  unfold bind at 1.
  match goal with
  | |- context [(if truthy _ then _ else _) ?st] =>
      destruct ((if truthy (bot_webhook self)
                 then _send_doc_link_to_feishu R self title
                        (lit "https://feishu.cn/docx/" ++ format (document_id doc))
                 else logger WARNING WebhookNotConfiguredMsg) st) as [[w|e] s4]
  end; reflexivity.
Qed.

(** Past the guard, [create_daily_doc] is its [try] block with the
    handler of line 86. *)
Lemma pipeline_past_guard R self c title content_md s :
  client self = Some c -> is_configured self = true ->
  create_daily_doc R self title content_md s
  = match create_daily_doc_try R self title content_md s with
    | (Ret v, s') => (Ret v, s')
    | (Raise e, s') =>
        (Ret None, mkState (log s' ++ [(ERROR, PipelineExceptionMsg e)]) (trace s'))
    end.
Proof.
  intros Hc Hi. unfold create_daily_doc, client_truthy. rewrite Hc, Hi.
  cbn [negb orb]. unfold try_except.
  destruct (create_daily_doc_try R self title content_md s) as [[v|e] s'];
    reflexivity.
Qed.

(** X11. When the creation call does not give a document (it raises,
    reports failure, or answers success without data or without a
    document), [create_daily_doc] returns [None] having made that one
    call only: nothing is uploaded and nothing is posted.  A reported
    failure is logged with its code and message. *)
Theorem X11_no_document_no_upload R self c title content_md s :
  client self = Some c -> is_configured self = true ->
  match document_create R (length (trace s)) c (create_request_of self title) with
  | Ret resp =>
      create_success resp = false \/ data resp = None \/
      (exists b, data resp = Some b /\ document b = None)
  | Raise _ => True
  end ->
  exists s',
    create_daily_doc R self title content_md s = (Ret None, s') /\
    trace s' = trace s ++ [CallDocumentCreate c (create_request_of self title)] /\
    (forall resp,
       document_create R (length (trace s)) c (create_request_of self title)
       = Ret resp ->
       create_success resp = false ->
       log s' = log s ++ [(ERROR, CreateDocFailedMsg (create_code resp)
                                                     (create_msg resp))]).
Proof.
  intros Hc Hi H.
  rewrite (pipeline_past_guard R self c title content_md s Hc Hi).
  rewrite (try_block_stages R self c title content_md s Hc). cbv zeta.
  destruct (document_create R (length (trace s)) c (create_request_of self title))
    as [resp|e].
  - destruct (create_success resp) eqn:Es; cbn [negb].
    + destruct H as [H|[H|(b & Hb & Hd)]]; [discriminate| |].
      * rewrite H. eexists. repeat split. intros r Hr Hf. inversion Hr; subst.
        congruence.
      * rewrite Hb, Hd. eexists. repeat split. intros r Hr Hf.
        inversion Hr; subst. congruence.
    + eexists. repeat split. intros r Hr _. inversion Hr; subst. reflexivity.
  - eexists. repeat split. intros r Hr. discriminate Hr.
Qed.

Lemma X11_no_document_no_upload_witness :
  exists s',
    create_daily_doc
      (mkRemote (fun _ _ _ => Ret (mkCreateDocumentResponse false 99991663
                                     (lit "no permission") None))
                (fun _ _ _ => Ret (mkChildrenResponse true 0 []))
                (fun _ _ => Ret (mkResponse 200 (Some ok_body))) [])
      sample_manager (lit "daily") (lit "# Daily") empty_state
    = (Ret None, s') /\
    trace s' = [CallDocumentCreate sample_client
                  (create_request_of sample_manager (lit "daily"))] /\
    log s' = [(ERROR, CreateDocFailedMsg 99991663 (lit "no permission"))].
Proof.
  destruct (X11_no_document_no_upload
              (mkRemote (fun _ _ _ => Ret (mkCreateDocumentResponse false 99991663
                                             (lit "no permission") None))
                        (fun _ _ _ => Ret (mkChildrenResponse true 0 []))
                        (fun _ _ => Ret (mkResponse 200 (Some ok_body))) [])
              sample_manager sample_client (lit "daily") (lit "# Daily")
              empty_state) as (s' & H1 & H2 & H3).
  - reflexivity.
  - reflexivity.
  - left. reflexivity.
  - exists s'. split; [exact H1|]. split; [exact H2|].
    apply (H3 _ eq_refl). reflexivity.
Defined.

(** X12. [create_daily_doc] returns a link exactly when the manager has
    a client and a complete configuration, the creation call answers
    success with a document, and every append call for the parsed blocks
    is answered (accepted or refused); the link is then
    "https://feishu.cn/docx/" followed by the document id.  Neither a
    refused batch nor the webhook can turn the result into [None]; an
    append call that raises does. *)
Theorem X12_link_returned_iff R self title content_md s doc_url :
  fst (create_daily_doc R self title content_md s) = Ret (Some doc_url)
  <->
  exists c resp b doc,
    client self = Some c /\ is_configured self = true /\
    document_create R (length (trace s)) c (create_request_of self title)
    = Ret resp /\
    create_success resp = true /\ data resp = Some b /\ document b = Some doc /\
    doc_url = doc_url_of (document_id doc) /\
    forall k,
      k < length (batch_requests (document_id doc)
                    (_markdown_to_sdk_blocks content_md)) ->
      exists r,
        document_block_children_create R (S (length (trace s)) + k) c
          (nth k (batch_requests (document_id doc)
                    (_markdown_to_sdk_blocks content_md)) no_request)
        = Ret r.
Proof.
  split.
  - intros H.
    destruct (client self) as [c|] eqn:Hc.
    2:{ unfold create_daily_doc, client_truthy in H. rewrite Hc in H.
        discriminate H. }
    destruct (is_configured self) eqn:Hi.
    2:{ unfold create_daily_doc in H. rewrite Hi in H. cbn [negb] in H.
        rewrite orb_true_r in H. discriminate H. }
    rewrite (pipeline_past_guard R self c title content_md s Hc Hi) in H.
    rewrite (try_block_stages R self c title content_md s Hc) in H.
    cbv zeta in H.
    destruct (document_create R (length (trace s)) c (create_request_of self title))
      as [resp|e] eqn:Ecreate; [|discriminate H].
    destruct (create_success resp) eqn:Es; cbn [negb] in H; [|discriminate H].
    destruct (data resp) as [b|] eqn:Eb; [|discriminate H].
    destruct (document b) as [doc|] eqn:Ed; [|discriminate H].
    destruct (_batch_write_blocks R self (document_id doc) _ _)
      as [[v|e] s3] eqn:Ew; [|discriminate H].
    exists c, resp, b, doc. repeat (split; [reflexivity || assumption|]).
    split.
    + match type of H with
      | context [(if truthy _ then _ else _) ?st] =>
          destruct (notify_returns R self title
                      (doc_url_of (document_id doc)) st) as [s4 Hn];
          rewrite Hn in H
      end.
      cbn [fst] in H. inversion H. reflexivity.
    + intros k Hk.
      destruct (batch_write_returned R self c (document_id doc) _ _ v s3 Hc Ew k Hk)
        as [r Hr].
      exists r. cbn [trace] in Hr. rewrite length_app, Nat.add_1_r in Hr.
      exact Hr.
  - intros (c & resp & b & doc & Hc & Hi & Ecreate & Es & Eb & Ed & -> & Hans).
    rewrite (pipeline_past_guard R self c title content_md s Hc Hi).
    rewrite (try_block_stages R self c title content_md s Hc). cbv zeta.
    rewrite Ecreate, Es, Eb, Ed. cbn [negb].
    rewrite (batch_write_answered R self c (document_id doc)
               (_markdown_to_sdk_blocks content_md) _ Hc).
    2:{ intros k Hk. cbn [trace]. rewrite length_app, Nat.add_1_r.
        exact (Hans k Hk). }
    match goal with
    | |- context [(if truthy _ then _ else _) ?st] =>
        destruct (notify_returns R self title
                    (doc_url_of (document_id doc)) st) as [s4 ->]
    end.
    reflexivity.
Qed.

Lemma X12_link_returned_iff_witness :
  fst (create_daily_doc (sample_remote false (Raise Timeout)) sample_manager
         (lit "daily") (lit "# Daily") empty_state)
  = Ret (Some (lit "https://feishu.cn/docx/doc1")).
Proof.
  apply (proj2 (X12_link_returned_iff (sample_remote false (Raise Timeout))
                  sample_manager (lit "daily") (lit "# Daily") empty_state
                  (lit "https://feishu.cn/docx/doc1"))).
  exists sample_client, (created (lit "doc1")),
    (mkCreateDocumentResponseBody (Some (mkDocument (Some (lit "doc1"))))),
    (mkDocument (Some (lit "doc1"))).
  repeat (split; [reflexivity|]).
  intros k _. eexists. reflexivity.
Defined.

(** X13. A run that gets its document and has every append call
    answered makes, in this order, the creation call, one append call per
    batch and, if a webhook is configured, one POST with the link.  Its
    log is: the link, one error per refused batch, the "content written"
    message (refusals or not), and one record for the notification, which
    is the warning when no webhook is configured. *)
Theorem X13_successful_run R self c resp b doc title content_md s :
  client self = Some c -> is_configured self = true ->
  document_create R (length (trace s)) c (create_request_of self title)
  = Ret resp ->
  create_success resp = true -> data resp = Some b -> document b = Some doc ->
  (forall k,
     k < length (batch_requests (document_id doc)
                   (_markdown_to_sdk_blocks content_md)) ->
     exists r,
       document_block_children_create R (S (length (trace s)) + k) c
         (nth k (batch_requests (document_id doc)
                   (_markdown_to_sdk_blocks content_md)) no_request)
       = Ret r) ->
  exists m,
    create_daily_doc R self title content_md s
    = (Ret (Some (doc_url_of (document_id doc))),
       mkState
         (log s ++
          (INFO, DocCreatedMsg (doc_url_of (document_id doc))) ::
          flat_map
            (fun k =>
               failure_record k
                 (document_block_children_create R (S (length (trace s)) + k) c
                    (nth k (batch_requests (document_id doc)
                              (_markdown_to_sdk_blocks content_md)) no_request)))
            (seq 0 (length (batch_requests (document_id doc)
                              (_markdown_to_sdk_blocks content_md))))
          ++ [(INFO, ContentWrittenMsg); m])
         (trace s ++
          CallDocumentCreate c (create_request_of self title) ::
          map (CallBlockChildrenCreate c)
              (batch_requests (document_id doc)
                 (_markdown_to_sdk_blocks content_md))
          ++ (if truthy (bot_webhook self)
              then [CallPost (post_request_of R self title
                                (doc_url_of (document_id doc)))]
              else [])))
    /\ (truthy (bot_webhook self) = false ->
        m = (WARNING, WebhookNotConfiguredMsg)).
Proof.
  intros Hc Hi Ecreate Es Eb Ed Hans.
  rewrite (pipeline_past_guard R self c title content_md s Hc Hi).
  rewrite (try_block_stages R self c title content_md s Hc). cbv zeta.
  rewrite Ecreate, Es, Eb, Ed. cbn [negb].
  rewrite (batch_write_answered R self c (document_id doc)
             (_markdown_to_sdk_blocks content_md) _ Hc).
  2:{ intros k Hk. cbn [trace]. rewrite length_app, Nat.add_1_r.
      exact (Hans k Hk). }
  cbn [log trace]. rewrite length_app, Nat.add_1_r.
  destruct (truthy (bot_webhook self)) eqn:Hw.
  - match goal with
    | |- context [_send_doc_link_to_feishu R self title ?u ?st] =>
        destruct (send_outcome R self title u st) as (m & -> & _)
    end.
    exists m. split; [|discriminate]. cbn [log trace].
    f_equal. f_equal; rewrite <- !app_assoc; reflexivity.
  - exists (WARNING, WebhookNotConfiguredMsg). split; [|reflexivity].
    unfold logger. cbn [log trace].
    f_equal. f_equal; rewrite <- !app_assoc, ?app_nil_r; reflexivity.
Qed.

Lemma X13_successful_run_witness :
  exists m,
    create_daily_doc (sample_remote false (Raise Timeout))
      (mkManager (Some (lit "cli_app")) (Some (lit "secret")) (Some (lit "fldr"))
                 None (Some sample_client))
      (lit "daily") (lit "# Daily") empty_state
    = (Ret (Some (lit "https://feishu.cn/docx/doc1")),
       mkState
         [(INFO, DocCreatedMsg (lit "https://feishu.cn/docx/doc1"));
          (ERROR, WriteBlockFailedMsg 1 1770001 []);
          (INFO, ContentWrittenMsg); m]
         [CallDocumentCreate sample_client
            (mkCreateDocumentRequest (Some (lit "fldr")) (lit "daily"));
          CallBlockChildrenCreate sample_client
            (mkChildrenRequest (Some (lit "doc1")) (Some (lit "doc1"))
               [block_of Heading1 (lit "Daily")] (-1))])
    /\ m = (WARNING, WebhookNotConfiguredMsg).
Proof.
  destruct (X13_successful_run (sample_remote false (Raise Timeout))
              (mkManager (Some (lit "cli_app")) (Some (lit "secret"))
                         (Some (lit "fldr")) None (Some sample_client))
              sample_client (created (lit "doc1"))
              (mkCreateDocumentResponseBody (Some (mkDocument (Some (lit "doc1")))))
              (mkDocument (Some (lit "doc1")))
              (lit "daily") (lit "# Daily") empty_state)
    as (m & Hrun & Hm); try reflexivity.
  - intros k _. eexists. reflexivity.
  - exists m. split; [|apply Hm; reflexivity].
    rewrite Hrun. reflexivity.
Defined.

(** X14. In every run of [create_daily_doc], whatever the remote side
    does, the calls made are: none at all, or the creation call first,
    then a prefix of the batch requests for the parsed text in batch
    order, then at most one POST, last; and a POST is made only when a
    webhook is configured. *)
Theorem X14_call_order R self title content_md s :
  exists calls,
    trace (snd (create_daily_doc R self title content_md s)) = trace s ++ calls /\
    (calls = [] \/
     exists c n doc_id posts,
       client self = Some c /\
       calls = CallDocumentCreate c (create_request_of self title)
               :: map (CallBlockChildrenCreate c)
                      (firstn n (batch_requests doc_id
                                   (_markdown_to_sdk_blocks content_md)))
               ++ posts /\
       (posts = [] \/
        truthy (bot_webhook self) = true /\
        exists doc_url, posts = [CallPost (post_request_of R self title doc_url)])).
Proof.
  destruct (client self) as [c|] eqn:Hc.
  2:{ exists []. split; [|left; reflexivity].
      unfold create_daily_doc, client_truthy. rewrite Hc.
      symmetry. apply app_nil_r. }
  destruct (is_configured self) eqn:Hi.
  2:{ exists []. split; [|left; reflexivity].
      unfold create_daily_doc. rewrite Hi. cbn [negb]. rewrite orb_true_r.
      symmetry. apply app_nil_r. }
  rewrite (pipeline_past_guard R self c title content_md s Hc Hi).
  rewrite (try_block_stages R self c title content_md s Hc). cbv zeta.
  assert (Hone : forall lg,
            exists calls,
              trace (mkState lg (trace s ++ [CallDocumentCreate c
                                               (create_request_of self title)]))
              = trace s ++ calls /\
              (calls = [] \/
               exists c0 n doc_id posts,
                 Some c = Some c0 /\
                 calls = CallDocumentCreate c0 (create_request_of self title)
                         :: map (CallBlockChildrenCreate c0)
                                (firstn n (batch_requests doc_id
                                             (_markdown_to_sdk_blocks content_md)))
                         ++ posts /\
                 (posts = [] \/
                  truthy (bot_webhook self) = true /\
                  exists doc_url,
                    posts = [CallPost (post_request_of R self title doc_url)]))).
  { intros lg. eexists. split; [reflexivity|]. right.
    exists c, 0, None, []. repeat split. left. reflexivity. }
  destruct (document_create R (length (trace s)) c (create_request_of self title))
    as [resp|e]; [|apply Hone].
  destruct (negb (create_success resp)); [apply Hone|].
  destruct (data resp) as [b|]; [|apply Hone].
  destruct (document b) as [doc|]; [|apply Hone].
  clear Hone.
  match goal with
  | |- context [_batch_write_blocks R self ?d ?bl ?st] =>
      destruct (batch_write_trace_prefix R self d bl st) as [n Hn];
      destruct (_batch_write_blocks R self d bl st) as [[v|e] s3]
  end; rewrite Hc in Hn; cbn [snd trace] in Hn.
  - destruct (truthy (bot_webhook self)) eqn:Hw.
    + match goal with
      | |- context [_send_doc_link_to_feishu R self title ?u ?st] =>
          destruct (send_outcome R self title u st) as (m & -> & _)
      end.
      eexists. split.
      * cbn [snd trace]. rewrite Hn, <- !app_assoc. reflexivity.
      * right. exists c, n, (document_id doc),
          [CallPost (post_request_of R self title (doc_url_of (document_id doc)))].
        repeat split. right. split; [reflexivity|]. eexists. reflexivity.
    + eexists. split.
      * cbn [snd trace logger]. rewrite Hn, <- !app_assoc. reflexivity.
      * right. exists c, n, (document_id doc), []. rewrite app_nil_r.
        repeat split. left. reflexivity.
  - eexists. split.
    + cbn [snd trace]. rewrite Hn, <- !app_assoc. reflexivity.
    + right. exists c, n, (document_id doc), []. rewrite app_nil_r.
      repeat split. left. reflexivity.
Qed.

Lemma is_configured_present self :
  is_configured self = true
  <-> present (app_id self) /\ present (app_secret self)
      /\ present (folder_token self).
Proof.
  rewrite <- !truthy_present. unfold is_configured, py_and.
  destruct (truthy (app_id self)) eqn:E1; cbv iota.
  - destruct (truthy (app_secret self)) eqn:E2; cbv iota.
    + tauto.
    + rewrite E2. split; [intros H|intros (_ & H & _)]; discriminate H.
  - rewrite E1. cbv iota. rewrite E1.
    split; [intros H|intros (H & _)]; discriminate H.
Qed.

(** X15. [__init__] makes no remote call.  The manager it builds has a
    client, made from the application id and secret, exactly when the
    id, the secret and the folder token are all present; otherwise it
    logs one warning, and [create_daily_doc] on that manager returns
    [None] without any remote call. *)
Theorem X15_constructed_manager config R title content_md s :
  exists self s1,
    __init__ config s = (Ret self, s1) /\
    trace s1 = trace s /\
    (client_truthy self = true
     <-> present (feishu_app_id config) /\ present (feishu_app_secret config)
         /\ present (feishu_folder_token config)) /\
    (client_truthy self = true ->
     log s1 = log s /\
     client self = Some (mkClient (feishu_app_id config)
                                  (feishu_app_secret config))) /\
    (client_truthy self = false ->
     log s1 = log s ++ [(WARNING, ConfigIncompleteMsg)] /\
     create_daily_doc R self title content_md s1
     = (Ret None,
        mkState (log s1 ++ [(ERROR, SdkNotInitialisedMsg)]) (trace s))).
Proof.
  unfold __init__.
  pose proof (is_configured_present
                (mkManager (feishu_app_id config) (feishu_app_secret config)
                           (feishu_folder_token config)
                           (feishu_bot_webhook config) None)) as Hp.
  cbn [app_id app_secret folder_token] in Hp.
  destruct (is_configured (mkManager _ _ _ _ None)) eqn:E.
  - eexists _, _. split; [reflexivity|]. split; [reflexivity|].
    cbn [client_truthy client app_id app_secret]. split; [|split].
    + split; [intros _; apply Hp; reflexivity|reflexivity].
    + intros _. split; reflexivity.
    + discriminate.
  - eexists _, _. split; [reflexivity|]. split; [reflexivity|].
    cbn [client_truthy client]. split; [|split].
    + split; [discriminate|]. intros H. apply Hp in H. discriminate H.
    + discriminate.
    + intros _. split; [reflexivity|]. reflexivity.
Qed.

Lemma X10_notification_outcome_witness :
  exists m,
    _send_doc_link_to_feishu
      (sample_remote true (Ret (mkResponse 200 (Some ok_body))))
      sample_manager (lit "daily") (lit "https://feishu.cn/docx/doc1")
      empty_state
    = (Ret PyNone,
       mkState [m]
         [CallPost (post_request_of
                      (sample_remote true (Ret (mkResponse 200 (Some ok_body))))
                      sample_manager (lit "daily")
                      (lit "https://feishu.cn/docx/doc1"))])
    /\ m = (INFO, PushOkMsg).
Proof.
  destruct (X10_notification_outcome
              (sample_remote true (Ret (mkResponse 200 (Some ok_body))))
              sample_manager (lit "daily") (lit "https://feishu.cn/docx/doc1")
              empty_state) as (m & Hrun & Hiff).
  exists m. split; [exact Hrun|].
  apply Hiff. exists (mkResponse 200 (Some ok_body)), [(lit "code", JNum 0)].
  repeat split.
Defined.

Lemma X15_constructed_manager_witness :
  exists self s1,
    __init__ (mkConfig (Some (lit "cli_app")) None (Some (lit "fldr"))
                       (Some (lit "https://open.feishu.cn/hook")))
             empty_state
    = (Ret self, s1) /\
    create_daily_doc (sample_remote true (Raise Timeout)) self
      (lit "daily") (lit "# Daily") s1
    = (Ret None,
       mkState [(WARNING, ConfigIncompleteMsg); (ERROR, SdkNotInitialisedMsg)] []).
Proof.
  destruct (X15_constructed_manager
              (mkConfig (Some (lit "cli_app")) None (Some (lit "fldr"))
                        (Some (lit "https://open.feishu.cn/hook")))
              (sample_remote true (Raise Timeout)) (lit "daily") (lit "# Daily")
              empty_state) as (self & s1 & Hinit & _ & Hiff & _ & Hoff).
  exists self, s1. split; [exact Hinit|].
  destruct (client_truthy self) eqn:E.
  - destruct (proj1 Hiff eq_refl) as (_ & (x & Hx & _) & _). discriminate Hx.
  - destruct (Hoff eq_refl) as [Hlog Hrun]. rewrite Hrun, Hlog. reflexivity.
Defined.

(** ** The uploader's requests, counted and placed *)

Lemma batch_requests_count doc_id blocks :
  length (batch_requests doc_id blocks) = (length blocks + 49) / 50.
Proof.
  unfold batch_requests. rewrite length_map.
  rewrite (batches_count blocks batch_size) by (unfold batch_size; lia).
  unfold batch_size. f_equal. lia.
Qed.

(** X6. [_batch_write_blocks] never makes more append calls than the
    number of blocks divided by 50, rounded up; when every call is
    answered it returns [None] after exactly that many calls, so none
    for an empty block list. *)
Theorem X6_append_call_count R self doc_id blocks s :
  length (trace (snd (_batch_write_blocks R self doc_id blocks s)))
  <= length (trace s) + (length blocks + 49) / 50
  /\
  (forall c,
     client self = Some c ->
     (forall k, k < length (batch_requests doc_id blocks) ->
        exists resp,
          document_block_children_create R (length (trace s) + k) c
            (nth k (batch_requests doc_id blocks) no_request) = Ret resp) ->
     fst (_batch_write_blocks R self doc_id blocks s) = Ret PyNone /\
     length (trace (snd (_batch_write_blocks R self doc_id blocks s)))
     = length (trace s) + (length blocks + 49) / 50).
Proof.
  split.
  - destruct (batch_write_trace_prefix R self doc_id blocks s) as [n Hn].
    rewrite Hn, length_app. apply Nat.add_le_mono_l.
    destruct (client self); [|simpl; lia].
    rewrite length_map, length_firstn, batch_requests_count. lia.
  - intros c Hc Hans.
    rewrite (batch_write_answered R self c doc_id blocks s Hc Hans).
    cbn [fst snd trace]. split; [reflexivity|].
    rewrite length_app, length_map, batch_requests_count. reflexivity.
Qed.

Lemma X6_append_call_count_witness :
  fst (_batch_write_blocks (sample_remote false (Raise Timeout)) sample_manager
         (Some (lit "doc1")) (repeat (block_of Paragraph (lit "x")) 101)
         empty_state) = Ret PyNone /\
  length (trace (snd (_batch_write_blocks (sample_remote false (Raise Timeout))
                        sample_manager (Some (lit "doc1"))
                        (repeat (block_of Paragraph (lit "x")) 101)
                        empty_state))) = 3.
Proof.
  destruct (proj2 (X6_append_call_count (sample_remote false (Raise Timeout))
                     sample_manager (Some (lit "doc1"))
                     (repeat (block_of Paragraph (lit "x")) 101) empty_state)
                  sample_client eq_refl) as [Hret Hlen].
  - intros k _. eexists. reflexivity.
  - split; [exact Hret|]. rewrite Hlen. reflexivity.
Defined.

(** X7. The uploader keeps every block at its place: when every append
    call is answered, block number [i] of the sequence is sent in request
    number [i / 50], at position [i mod 50] of its children. *)
Theorem X7_block_positions R self c doc_id blocks s :
  client self = Some c ->
  (forall k, k < length (batch_requests doc_id blocks) ->
     exists resp,
       document_block_children_create R (length (trace s) + k) c
         (nth k (batch_requests doc_id blocks) no_request) = Ret resp) ->
  exists s' sent,
    _batch_write_blocks R self doc_id blocks s = (Ret PyNone, s') /\
    trace s' = trace s ++ map (CallBlockChildrenCreate c) sent /\
    forall i d,
      i < length blocks ->
      i / 50 < length sent /\
      nth (i mod 50) (children (nth (i / 50) sent no_request)) d
      = nth i blocks d.
Proof.
  intros Hc Hans.
  eexists _, (batch_requests doc_id blocks).
  split; [exact (batch_write_answered R self c doc_id blocks s Hc Hans)|].
  split; [reflexivity|].
  intros i d Hi.
  assert (Hk : i / 50 < length (batch_requests doc_id blocks)).
  { rewrite batch_requests_count.
    apply Nat.lt_le_trans with ((i + 1 * 50) / 50).
    - rewrite Nat.div_add by lia. lia.
    - apply Nat.Div0.div_le_mono. lia. }
  split; [exact Hk|].
  rewrite (batch_requests_nth doc_id blocks (i / 50) no_request Hk).
  cbn [children]. unfold slice, batch_size.
  rewrite nth_firstn, nth_skipn.
  pose proof (Nat.mod_upper_bound i 50) as Hm.
  pose proof (Nat.div_mod_eq i 50) as Hd.
  destruct (Nat.ltb_spec (i mod 50) (i / 50 * 50 + 50 - i / 50 * 50)); [|lia].
  f_equal. lia.
Qed.

Lemma X7_block_positions_witness :
  exists s' sent,
    _batch_write_blocks (sample_remote true (Raise Timeout)) sample_manager
      (Some (lit "doc1"))
      (repeat (block_of Paragraph (lit "x")) 60 ++ [block_of Heading1 (lit "y")])
      empty_state
    = (Ret PyNone, s') /\
    trace s' = map (CallBlockChildrenCreate sample_client) sent /\
    nth 10 (children (nth 1 sent no_request)) (block_of DividerKind [])
    = block_of Heading1 (lit "y").
Proof.
  destruct (X7_block_positions (sample_remote true (Raise Timeout))
              sample_manager sample_client (Some (lit "doc1"))
              (repeat (block_of Paragraph (lit "x")) 60
               ++ [block_of Heading1 (lit "y")])
              empty_state eq_refl) as (s' & sent & Hrun & Htrace & Hpos).
  - intros k _. eexists. reflexivity.
  - exists s', sent. split; [exact Hrun|]. split; [exact Htrace|].
    destruct (Hpos 60 (block_of DividerKind [])) as [_ H60].
    + vm_compute. lia.
    + exact H60.
Defined.
